(** * process_lesson.py: the enrichment pipeline, embedded and verified

    The development follows
    [src/data/external/data_processing/process_lesson.py]: first the
    functions of the script, under their names, then the properties.

    How the Python of the script is rendered:

    - Text is [string].  [None] appears in one place, the cells that
      csv.DictReader fills in for a record shorter than the header; a value
      that is text or [None] is a [pyval].
    - The chain returns what the script annotates as [list[dict]]: a list
      of objects whose values are text, [gmap string string], or it
      raises.  [entry.get(k, "")] is [get_or_empty].
    - The csv module is taken at the level of records.  The content of a
      csv file is the sequence of records written to it, which is the
      sequence read back from it ([csv.text]); a blank line is the record
      [[]]; a file of size zero is the empty sequence.  A file that may be
      absent is an [option].
    - Exceptions are the constructors of [exn]; code that may raise returns
      a [result].  Errors of the operating system while the output file is
      read or written are not modelled.
    - The external chain [prompt_template | llm | parser] is a variable of
      the development: any function of the template, the model, the number
      of requests made before and the items. *)

From stdpp Require Import gmap strings list fin_maps.
From Stdlib Require Import Ascii ZArith Lia DecimalString DecimalPos.

Local Open Scope string_scope.
Local Open Scope list_scope.
Local Open Scope Z_scope.
Local Open Scope nat_scope.

(** ** Python values and exceptions *)

Abbreviation pyval := (option string) (only parsing).

Inductive exn :=
| FileNotFoundError (path : string)
| JSONDecodeError
| KeyError (key : string)
| TypeError
| ValueError (literal : string)
| ZeroDivisionError
| ChainError (msg : string)
| SystemExit (code : Z).

Inductive result (A : Type) :=
| Ok (a : A)
| Raise (e : exn).
Arguments Ok {A} a.
Arguments Raise {A} e.

Definition rbind {A B} (r : result A) (k : A → result B) : result B :=
  match r with
  | Ok a => k a
  | Raise e => Raise e
  end.

Notation "x <- r ;; k" := (rbind r (λ x, k))
  (at level 100, r at next level, right associativity, only parsing).

(** ** Python built-ins the script uses

    Strings are sequences of one-byte characters: for the command-line
    argument of the script (ASCII digits, signs, a hyphen) bytes and
    characters coincide.  The limit CPython puts on the number of digits of
    an integer literal is not modelled. *)

Module py.

(** ["-" in s] *)
Fixpoint contains (c : ascii) (s : string) : bool :=
  match s with
  | EmptyString => false
  | String c' s' => if decide (c = c') then true else contains c s'
  end.

(** [s.split(c, 1)]: at most one cut, at the first [c]. *)
Fixpoint split1 (c : ascii) (s : string) : list string :=
  match s with
  | EmptyString => [EmptyString]
  | String c' s' =>
      if decide (c = c') then [EmptyString; s']
      else match split1 c s' with
           | [] => []
           | hd :: tl => String c' hd :: tl
           end
  end.

Definition zeros (n : nat) : string :=
  String.string_of_list_ascii (replicate n "0"%char).

Definition is_sign (c : ascii) : bool :=
  bool_decide (c = "+"%char ∨ c = "-"%char).

(** [s.zfill(width)]: zeros go after a leading sign. *)
Definition zfill (width : nat) (s : string) : string :=
  let n := String.length s in
  if (width <=? n)%nat then s
  else match s with
       | EmptyString => zeros width
       | String c rest =>
           if is_sign c then String c (zeros (width - n) +:+ rest)
           else zeros (width - n) +:+ s
       end.

(** [str(n)] for an integer. *)
Definition str (n : Z) : string := NilZero.string_of_int (Z.to_int n).

(** The characters [int] skips at both ends: tab to carriage return, and
    the space. *)
Definition is_space (c : ascii) : bool :=
  let n := nat_of_ascii c in
  ((9 <=? n) && (n <=? 13) || (n =? 32))%nat.

Definition digit_of (c : ascii) : option Z :=
  let n := nat_of_ascii c in
  if ((48 <=? n) && (n <=? 57))%nat then Some (Z.of_nat (n - 48)) else None.

Fixpoint lstrip (l : list ascii) : list ascii :=
  match l with
  | c :: l' => if is_space c then lstrip l' else l
  | [] => []
  end.

Definition strip (l : list ascii) : list ascii :=
  reverse (lstrip (reverse (lstrip l))).

(** The digits after the first one: single underscores may separate them.
    [us] tells that the character before was an underscore. *)
Fixpoint more_digits (acc : Z) (us : bool) (l : list ascii) : option Z :=
  match l with
  | [] => if us then None else Some acc
  | c :: l' =>
      match digit_of c with
      | Some d => more_digits (10 * acc + d)%Z false l'
      | None =>
          if us then None
          else if decide (c = "_"%char) then more_digits acc true l'
          else None
      end
  end.

Definition digits (l : list ascii) : option Z :=
  match l with
  | [] => None
  | c :: l' =>
      match digit_of c with
      | Some d => more_digits d false l'
      | None => None
      end
  end.

(** [int(s)] in base ten. *)
Definition int (s : string) : result Z :=
  let body := strip (String.list_ascii_of_string s) in
  let parsed :=
    match body with
    | c :: l' =>
        if decide (c = "-"%char) then Z.opp <$> digits l'
        else if decide (c = "+"%char) then digits l'
        else digits body
    | [] => None
    end in
  match parsed with
  | Some n => Ok n
  | None => Raise (ValueError s)
  end.

(** [range(start, stop)] as a list. *)
Definition range (start stop : Z) : list Z := seqZ start (stop - start).

(** [a // b] *)
Definition floordiv (a b : Z) : result Z :=
  if decide (b = 0)%Z then Raise ZeroDivisionError else Ok (a `div` b)%Z.

(** An index of a slice, brought into [0 .. len]. *)
Definition slice_index (len : nat) (i : Z) : nat :=
  let i := (if decide (i < 0) then i + Z.of_nat len else i)%Z in
  Z.to_nat (Z.max 0 (Z.min i (Z.of_nat len))).

(** [l[start:stop]] *)
Definition slice {A} (l : list A) (start stop : Z) : list A :=
  let i := slice_index (length l) start in
  let j := slice_index (length l) stop in
  take (j - i) (drop i l).

(** [x or y] on text and [None]. *)
Definition or (x y : pyval) : pyval :=
  match x with
  | Some s => if decide (s = "") then y else x
  | None => y
  end.

(** [not x] on text and [None]. *)
Definition falsy (x : pyval) : bool :=
  match x with
  | Some s => bool_decide (s = "")
  | None => true
  end.

End py.

(** ** The csv module, at the level of records *)

Module csv.

Abbreviation record := (list string).
Abbreviation text := (list (list string)).

(** [dict(zip(fieldnames, row))]: a later duplicate name wins; names the
    record is too short for get [restval = None].  The surplus cells go
    under the key [None], which no column name retrieves. *)
Definition row_dict (fieldnames : list string) (row : record)
  : gmap string pyval :=
  let d := foldl (λ d kv, <[kv.1 := Some kv.2]> d) ∅ (zip fieldnames row) in
  foldl (λ d k, <[k := None]> d) d (drop (length row) fieldnames).

(** [csv.DictReader(f)]: the first record is the header, blank records
    after it are not returned. *)
Definition DictReader (f : text) : list (gmap string pyval) :=
  match f with
  | [] => []
  | fieldnames :: rows =>
      row_dict fieldnames <$> filter (λ r, r ≠ []) rows
  end.

(** [row.get(k, "")] on a DictReader row. *)
Definition get (row : gmap string pyval) (k : string) : pyval :=
  default (Some "") (row !! k).

End csv.

(** [entry.get(k, "")] on an object of the completion. *)
Definition get_or_empty (entry : gmap string string) (k : string) : string :=
  default "" (entry !! k).

(** ** class VocabCSVWriter *)

Module VocabCSVWriter.

Definition FIELDNAMES : list string :=
  [ "Kanji"; "Reading (Kana)"; "English"; "Part of Speech";
    "Polite (Masu-form)"; "Te-form"; "Short Negative (Nai)";
    "Short Past (Ta)"; "Usage/Notes" ].

Record t := mk {
  existing_entries : gset (pyval * pyval);
  added_count : nat;
  skipped_count : nat
}.

(** The object as [__init__] has it before the two calls. *)
Definition fresh : t :=
  {| existing_entries := ∅; added_count := 0; skipped_count := 0 |}.

(** [OUTPUT_CSV.stat().st_size == 0] for a file that exists. *)
Definition size_is_zero (f : csv.text) : bool :=
  match f with [] => true | _ => false end.

(** Opening with mode "w" truncates; [writeheader] writes one record. *)
Definition _ensure_header (out : option csv.text) : option csv.text :=
  match out with
  | None => Some [FIELDNAMES]
  | Some f => if size_is_zero f then Some [FIELDNAMES] else Some f
  end.

Definition row_key (row : gmap string pyval) : pyval * pyval :=
  (csv.get row "Kanji", csv.get row "Reading (Kana)").

Definition _load_existing (self : t) (out : option csv.text) : result t :=
  match out with
  | None => Raise (FileNotFoundError "vocab.csv")
  | Some f =>
      Ok (foldl
            (λ w row,
               {| existing_entries := existing_entries w ∪ {[ row_key row ]};
                  added_count := added_count w;
                  skipped_count := skipped_count w |})
            self (csv.DictReader f))
  end.

(** [VocabCSVWriter()]: the new object and the file as it is left. *)
Definition __init__ (out : option csv.text) : result (t * option csv.text) :=
  let out := _ensure_header out in
  self <- _load_existing fresh out ;;
  Ok (self, out).

Definition entry_key (entry : gmap string string) : pyval * pyval :=
  (Some (get_or_empty entry "kanji"), Some (get_or_empty entry "reading")).

(** The row dict of [write_entries], in the order of [FIELDNAMES], as
    [DictWriter.writerow] lays it out. *)
Definition entry_row (entry : gmap string string) : csv.record :=
  [ get_or_empty entry "kanji"; get_or_empty entry "reading";
    get_or_empty entry "english"; get_or_empty entry "pos";
    get_or_empty entry "polite"; get_or_empty entry "te_form";
    get_or_empty entry "negative"; get_or_empty entry "past";
    get_or_empty entry "notes" ].

(** One turn of the loop of [write_entries]. *)
Definition write_entry (st : t * csv.text) (entry : gmap string string)
  : t * csv.text :=
  let key := entry_key entry in
  if decide (key ∈ existing_entries st.1) then
    ({| existing_entries := existing_entries st.1;
        added_count := added_count st.1;
        skipped_count := S (skipped_count st.1) |}, st.2)
  else
    ({| existing_entries := existing_entries st.1 ∪ {[ key ]};
        added_count := S (added_count st.1);
        skipped_count := skipped_count st.1 |}, st.2 ++ [entry_row entry]).

(** Opening with mode "a" creates the file when it is absent. *)
Definition write_entries (self : t) (out : option csv.text)
    (entries : list (gmap string string)) : t * option csv.text :=
  let st := foldl write_entry (self, default [] out) entries in
  (st.1, Some st.2).

End VocabCSVWriter.

(** ** The functions of the script *)

Definition parse_lesson_arg (lesson_arg : string) : result (list string) :=
  if py.contains "-" lesson_arg then
    match py.split1 "-" lesson_arg with
    | [start; end_] =>
        start_num <- py.int start ;;
        end_num <- py.int end_ ;;
        Ok ((λ n, py.zfill 2 (py.str n)) <$> py.range start_num (end_num + 1))
    | _ => Raise (ValueError "unpack")
    end
  else
    Ok [py.zfill 2 lesson_arg].

(** A parsed JSON document; a later duplicate member of an object wins. *)
#[local] Set Warnings "-register-all".
Inductive json :=
| JNull
| JBool (b : bool)
| JNumber (literal : string)
| JString (s : string)
| JArray (items : list json)
| JObject (members : list (string * json)).

(** The text of the schema file: what [json.load] makes of it. *)
Inductive json_text :=
| NotJson
| Json (v : json).

(** What the script finds around it.  [OPENAI_API_KEY] is the environment
    after the two [load_dotenv] calls; [PROCESSED_DIR] maps a file name to
    the records of that file. *)
Record world := {
  OPENAI_API_KEY : pyval;
  SCHEMA_PATH : option json_text;
  PROCESSED_DIR : gmap string (list (list string));
  OUTPUT_CSV : option csv.text
}.

Definition load_schema (w : world) : result json :=
  match SCHEMA_PATH w with
  | None => Raise (FileNotFoundError "vocab_schema.json")
  | Some NotJson => Raise JSONDecodeError
  | Some (Json v) => Ok v
  end.

Definition lesson_file (lesson_num : string) : string :=
  "genki_vocab_L" +:+ lesson_num +:+ ".csv".

Definition load_lesson_vocab (w : world) (lesson_num : string)
  : result (list (gmap string pyval)) :=
  match PROCESSED_DIR w !! lesson_file lesson_num with
  | None => Raise (FileNotFoundError (lesson_file lesson_num))
  | Some f => Ok (csv.DictReader f)
  end.

(** [schema[key]] *)
Definition subscript (schema : json) (key : string) : result json :=
  match schema with
  | JObject members =>
      match (list_to_map (reverse members) : gmap string json) !! key with
      | Some v => Ok v
      | None => Raise (KeyError key)
      end
  | _ => Raise TypeError
  end.

(** The template with its three partial variables bound. *)
Record prompt_template := {
  columns_info : json;
  verb_exceptions : json;
  irregular_verbs : json
}.

Definition create_batch_prompt_template (schema : json)
  : result prompt_template :=
  c <- subscript schema "columns" ;;
  v <- subscript schema "verb_exceptions" ;;
  i <- subscript schema "irregular_verbs" ;;
  Ok {| columns_info := c; verb_exceptions := v; irregular_verbs := i |}.

(** One element of [vocab_list]. *)
Record vocab_item := {
  word_kana : pyval;
  kanji_form : pyval;
  pos_japanese : pyval;
  english : pyval
}.

Definition vocab_list (items : list (gmap string pyval)) : list vocab_item :=
  (λ item,
     let word_kana := csv.get item "単語" in
     {| word_kana := word_kana;
        kanji_form := py.or (csv.get item "漢字表記") word_kana;
        pos_japanese := csv.get item "品詞";
        english := csv.get item "英訳" |}) <$> items.

(** What the script prints, line by line. *)
Inductive line :=
| Error_no_api_key
| Processing_lessons (lesson_nums : list string)
| Loading_schema
| Lesson_banner (lesson_num : string)
| Skipping (e : exn)
| Found (n : nat)
| Processing_batch (batch_num total_batches : Z) (len : nat)
| Dry_entry (kanji reading english : pyval)
| Tick
| Written (n : nat)
| Batch_error (e : exn)
| Summary (processed items lessons : nat)
| Writer_summary (added skipped : nat)
| Done.

Record args := {
  lesson : string;
  model : string;
  batch_size : Z;
  dry_run : bool
}.

(** The variables of [main] that change in the loop, with the output file
    and the number of completions requested so far. *)
Record run := {
  output : option csv.text;
  csv_writer : option VocabCSVWriter.t;
  grand_total_processed : nat;
  grand_total_items : nat;
  calls : nat
}.

Section pipeline.

(** The chain [prompt_template | llm | parser]: the answer to a request may
    depend on the template, on the model, on the number of requests made
    before it and on the items; it is a list of objects or an exception. *)
Variable chain_invoke :
  prompt_template → string → nat → list vocab_item →
  result (list (gmap string string)).

Definition process_vocab_batch (template : prompt_template) (model : string)
    (call : nat) (items : list (gmap string pyval))
  : result (list (gmap string string)) :=
  chain_invoke template model call (vocab_list items).

(** The slice of one turn of the batch loop. *)
Definition batch_at {A} (vocab_items : list A) (batch_size batch_num : Z)
  : list A :=
  let start_idx := (batch_num * batch_size)%Z in
  let end_idx :=
    Z.min (start_idx + batch_size) (Z.of_nat (length vocab_items)) in
  py.slice vocab_items start_idx end_idx.

Definition total_batches (len : nat) (batch_size : Z) : result Z :=
  py.floordiv (Z.of_nat len + batch_size - 1) batch_size.

(** The body of the batch loop: the [try] and its [except Exception]. *)
Definition process_batch (a : args) (template : prompt_template)
    (vocab_items : list (gmap string pyval)) (total : Z)
    (st : run) (batch_num : Z) : run * list line :=
  let batch := batch_at vocab_items (batch_size a) batch_num in
  let announce := Processing_batch (batch_num + 1) total (length batch) in
  match process_vocab_batch template (model a) (calls st) batch with
  | Raise e =>
      ({| output := output st; csv_writer := csv_writer st;
          grand_total_processed := grand_total_processed st;
          grand_total_items := grand_total_items st;
          calls := S (calls st) |},
       [announce; Batch_error e])
  | Ok results =>
      let processed := grand_total_processed st + length results in
      match csv_writer st with
      | None =>
          ({| output := output st; csv_writer := None;
              grand_total_processed := processed;
              grand_total_items := grand_total_items st;
              calls := S (calls st) |},
           announce ::
           ((λ entry, Dry_entry (entry !! "kanji") (entry !! "reading")
                                (entry !! "english")) <$> results)
           ++ [Tick])
      | Some writer =>
          let wo := VocabCSVWriter.write_entries writer (output st) results in
          ({| output := wo.2; csv_writer := Some wo.1;
              grand_total_processed := processed;
              grand_total_items := grand_total_items st;
              calls := S (calls st) |},
           [announce; Written (length results)])
      end
  end.

Fixpoint batch_loop (a : args) (template : prompt_template)
    (vocab_items : list (gmap string pyval)) (total : Z)
    (st : run) (batch_nums : list Z) : run * list line :=
  match batch_nums with
  | [] => (st, [])
  | batch_num :: rest =>
      let r := process_batch a template vocab_items total st batch_num in
      let r' := batch_loop a template vocab_items total r.1 rest in
      (r'.1, r.2 ++ r'.2)
  end.

(** The body of the lesson loop.  The third component is the exception
    that leaves the loop, if any. *)
Definition process_lesson (a : args) (template : prompt_template) (w : world)
    (st : run) (lesson_num : string) : run * list line * option exn :=
  match load_lesson_vocab w lesson_num with
  | Raise (FileNotFoundError p) =>
      (st, [Lesson_banner lesson_num; Skipping (FileNotFoundError p)], None)
  | Raise e => (st, [Lesson_banner lesson_num], Some e)
  | Ok vocab_items =>
      let st := {| output := output st; csv_writer := csv_writer st;
                   grand_total_processed := grand_total_processed st;
                   grand_total_items :=
                     grand_total_items st + length vocab_items;
                   calls := calls st |} in
      let head := [Lesson_banner lesson_num; Found (length vocab_items)] in
      match total_batches (length vocab_items) (batch_size a) with
      | Raise e => (st, head, Some e)
      | Ok total =>
          let r := batch_loop a template vocab_items total st
                     (py.range 0 total) in
          (r.1, head ++ r.2, None)
      end
  end.

Fixpoint lesson_loop (a : args) (template : prompt_template) (w : world)
    (st : run) (lesson_nums : list string) : run * list line * option exn :=
  match lesson_nums with
  | [] => (st, [], None)
  | lesson_num :: rest =>
      match process_lesson a template w st lesson_num with
      | (st', out, Some e) => (st', out, Some e)
      | (st', out, None) =>
          match lesson_loop a template w st' rest with
          | (st'', out', e) => (st'', out ++ out', e)
          end
      end
  end.

(** The state [main] enters the lesson loop with once the writer, if any,
    is constructed. *)
Definition start (out : option csv.text) (writer : option VocabCSVWriter.t)
  : run :=
  {| output := out; csv_writer := writer;
     grand_total_processed := 0; grand_total_items := 0; calls := 0 |}.

(** [main()]: the final state, what was printed, and the exception that
    ended the run, if any. *)
Definition main (a : args) (w : world) : run * list line * option exn :=
  let untouched := start (OUTPUT_CSV w) None in
  if py.falsy (OPENAI_API_KEY w) then
    (untouched, [Error_no_api_key], Some (SystemExit 1))
  else
    match parse_lesson_arg (lesson a) with
    | Raise e => (untouched, [], Some e)
    | Ok lesson_nums =>
        let out0 := [Processing_lessons lesson_nums; Loading_schema] in
        match (schema <- load_schema w ;;
               create_batch_prompt_template schema) with
        | Raise e => (untouched, out0, Some e)
        | Ok template =>
            match (if dry_run a then Ok (None, OUTPUT_CSV w)
                   else r <- VocabCSVWriter.__init__ (OUTPUT_CSV w) ;;
                        Ok (Some r.1, r.2)) with
            | Raise e => (untouched, out0, Some e)
            | Ok (writer, out) =>
                match lesson_loop a template w (start out writer)
                        lesson_nums with
                | (st, printed, Some e) => (st, out0 ++ printed, Some e)
                | (st, printed, None) =>
                    (st,
                     out0 ++ printed
                     ++ [Summary (grand_total_processed st)
                                 (grand_total_items st) (length lesson_nums)]
                     ++ match csv_writer st with
                        | Some writer =>
                            [Writer_summary
                               (VocabCSVWriter.added_count writer)
                               (VocabCSVWriter.skipped_count writer)]
                        | None => []
                        end
                     ++ [Done],
                     None)
                end
            end
        end
    end.

(** The batches of one lesson, in the order the loop visits them. *)
Definition batches {A} (vocab_items : list A) (batch_size : Z)
  : result (list (list A)) :=
  total <- total_batches (length vocab_items) batch_size ;;
  Ok (batch_at vocab_items batch_size <$> py.range 0 total).

(** The batches of one lesson; none when the lesson has no file. *)
Definition lesson_batches (w : world) (batch_size : Z) (lesson_num : string)
  : list (list (gmap string pyval)) :=
  match load_lesson_vocab w lesson_num with
  | Ok vocab_items =>
      match batches vocab_items batch_size with
      | Ok bs => bs
      | Raise _ => []
      end
  | Raise _ => []
  end.

(** The batches of a run, lesson after lesson. *)
Definition run_batches (w : world) (batch_size : Z) (lesson_nums : list string)
  : list (list (gmap string pyval)) :=
  concat (lesson_batches w batch_size <$> lesson_nums).

(** The lengths of the answers to the requests for [bs], numbered from
    [call] on, summed over the requests that did not raise. *)
Fixpoint succeeded_items (template : prompt_template) (model : string)
    (call : nat) (bs : list (list (gmap string pyval))) : nat :=
  match bs with
  | [] => 0
  | batch :: rest =>
      match process_vocab_batch template model call batch with
      | Ok results => length results
      | Raise _ => 0
      end + succeeded_items template model (S call) rest
  end.

End pipeline.

(** * split_genki.py

    The script that makes the lesson files,
    [src/data/external/data_processing/split_genki.py].  Here a Python
    [str] is the list of its code points, so that [strip], [\d] and [int]
    see characters as Python does.  Which characters are decimal digits,
    and their values, is a table of the Unicode database: it is the
    variable [decimal] of the section.  How many digits [int] converts is
    a setting of the interpreter: the variable [int_max_str_digits].  What
    [main] prints is left out; the files it writes are the value it
    returns. *)

Module split_genki.

(** An ASCII literal as code points. *)
Definition lit (s : string) : list N :=
  (λ c, N_of_ascii c) <$> String.list_ascii_of_string s.

(** The characters [str.strip()] removes. *)
Definition isspace (c : N) : bool :=
  ((9 <=? c) && (c <=? 13) || (28 <=? c) && (c <=? 32)
   || (c =? 133) || (c =? 160) || (c =? 5760)
   || (8192 <=? c) && (c <=? 8202)
   || (c =? 8232) || (c =? 8233) || (c =? 8239) || (c =? 8287)
   || (c =? 12288))%N.

Fixpoint lstrip (s : list N) : list N :=
  match s with
  | c :: s' => if isspace c then lstrip s' else s
  | [] => []
  end.

Definition strip (s : list N) : list N :=
  reverse (lstrip (reverse (lstrip s))).

(** [s.split(",")[0]] *)
Fixpoint before_comma (s : list N) : list N :=
  match s with
  | [] => []
  | c :: s' => if decide (c = 44%N) then [] else c :: before_comma s'
  end.

(** [f"{num:02d}"] for a number that is not negative. *)
Definition format_02d (num : N) : list N :=
  let digits := lit (py.str (Z.of_N num)) in
  replicate (2 - length digits) 48%N ++ digits.

(** What leaves the script as an exception: [next] on a reader without
    record, and [int] on more digits than the interpreter converts. *)
Inductive raised :=
| StopIteration
| ValueError (digits : nat).

Inductive outcome (A : Type) :=
| Returns (a : A)
| Raises (e : raised).
Arguments Returns {A} a.
Arguments Raises {A} e.

Section unicode.

(** [decimal c] is the value of [c] when [c] is a decimal digit. *)
Variable decimal : N → option N.

(** [sys.get_int_max_str_digits()]: 4300 unless configured, 0 when there is
    no limit, as in an interpreter that has none. *)
Variable int_max_str_digits : nat.

(** The longest run of decimal digits at the head, and the rest. *)
Fixpoint span_digits (s : list N) : list N * list N :=
  match s with
  | c :: s' =>
      match decimal c with
      | Some _ => let r := span_digits s' in (c :: r.1, r.2)
      | None => ([], s)
      end
  | [] => ([], [])
  end.

(** [re.search(r'L(\d+)', s)]: group 1 of the leftmost match. *)
Fixpoint search_L_digits (s : list N) : option (list N) :=
  match s with
  | [] => None
  | c :: s' =>
      if decide (c = 76%N) then
        match (span_digits s').1 with
        | [] => search_L_digits s'
        | ds => Some ds
        end
      else search_L_digits s'
  end.

(** The number a run of decimal digits writes. *)
Definition digits_value (ds : list N) : N :=
  foldl (λ acc c, 10 * acc + default 0 (decimal c))%N 0%N ds.

(** [int] on a run of decimal digits.  The limit is looked at for more
    than 640 digits only; every digit counts, a leading zero too. *)
Definition int_digits (ds : list N) : outcome N :=
  if bool_decide (640 < length ds ∧ 0 < int_max_str_digits
                  ∧ int_max_str_digits < length ds)
  then Raises (ValueError (length ds))
  else Returns (digits_value ds).

(** The pair [(lesson_key, warning)]. *)
Definition extract_first_lesson (lesson_field : list N)
  : outcome (option (list N) * option (list N)) :=
  if bool_decide (lesson_field = []) || bool_decide (strip lesson_field = [])
  then Returns (None, Some (lit "empty lesson field"))
  else
    let first := strip (before_comma lesson_field) in
    match search_L_digits first with
    | Some ds =>
        match int_digits ds with
        | Returns num => Returns (Some (lit "L" ++ format_02d num), None)
        | Raises e => Raises e
        end
    | None =>
        if bool_decide (71%N ∈ first) then Returns (Some (lit "L00"), None)
        else Returns
               (None,
                Some (lit "unrecognized format: '" ++ lesson_field
                      ++ lit "'"))
    end.

(** The two collections of [main]; a reason is text or [None]. *)
Record sorted := {
  lessons : gmap (list N) (list (list (list N)));
  unsorted : list (list (list N) * option (list N))
}.

(** The body of the loop over the rows. *)
Definition sort_row (st : sorted) (row : list (list N)) : outcome sorted :=
  if decide (length row < 6) then
    Returns
      {| lessons := lessons st;
         unsorted :=
           unsorted st
           ++ [(row, Some (lit "row has fewer than 6 columns"))] |}
  else
    let lesson_field := default [] (row !! 5) in
    match extract_first_lesson lesson_field with
    | Raises e => Raises e
    | Returns (None, warning) =>
        Returns {| lessons := lessons st;
                   unsorted := unsorted st ++ [(row, warning)] |}
    | Returns (Some lesson_key, _) =>
        Returns
          {| lessons := <[lesson_key :=
                            default [] (lessons st !! lesson_key) ++ [row]]>
                          (lessons st);
             unsorted := unsorted st |}
    end.

(** The loop over the rows; an exception leaves it. *)
Fixpoint sort_rows (st : sorted) (rows : list (list (list N)))
  : outcome sorted :=
  match rows with
  | [] => Returns st
  | row :: rows' =>
      match sort_row st row with
      | Returns st' => sort_rows st' rows'
      | Raises e => Raises e
      end
  end.

Definition lesson_file_name (lesson_key : list N) : list N :=
  lit "genki_vocab_" ++ lesson_key ++ lit ".csv".

(** The record written for a row that was not sorted; the csv writer
    leaves the cell of a [None] empty. *)
Definition unsorted_record (item : list (list N) * option (list N))
  : list (list N) :=
  let row := item.1 in
  (if decide (length row < 6) then row ++ replicate (6 - length row) []
   else row) ++ [default [] item.2].

(** [main()]: the files written, by name.  Reading the header raises
    StopIteration when the input has no record; the files are written
    after the loop, so that an exception in the loop leaves none. *)
Definition main (input : list (list (list N)))
  : outcome (gmap (list N) (list (list (list N)))) :=
  match input with
  | [] => Raises StopIteration
  | header :: rows =>
      match sort_rows {| lessons := ∅; unsorted := [] |} rows with
      | Raises e => Raises e
      | Returns st =>
          let files : gmap (list N) (list (list (list N))) :=
            kmap lesson_file_name ((λ rows, header :: rows) <$> lessons st)
          in
          Returns
            (match unsorted st with
             | [] => files
             | _ =>
                 <[lit "genki_vocab_unsorted.csv" :=
                     (header ++ [lit "_sort_error"])
                     :: (unsorted_record <$> unsorted st)]> files
             end)
      end
  end.

End unicode.

(** The table [decimal] restricted to ASCII. *)
Definition ascii_decimal (c : N) : option N :=
  if ((48 <=? c) && (c <=? 57))%N then Some (c - 48)%N else None.

End split_genki.

(** ** Views of the store used in the statements *)

(** The records of a file that may be absent. *)
Definition records (out : option csv.text) : csv.text := default [] out.

(** The keys [_load_existing] computes, row by row, in file order. *)
Definition file_keys (f : csv.text) : list (pyval * pyval) :=
  VocabCSVWriter.row_key <$> csv.DictReader f.



(** The entries a call of [write_entries] is to append, said without the
    loop: an entry is kept when its key is neither in the set [seen] the
    call starts with nor the key of an entry [earlier] in the same
    sequence. *)
Fixpoint first_unseen (seen : gset (pyval * pyval))
    (earlier : list (pyval * pyval)) (entries : list (gmap string string))
  : list (gmap string string) :=
  match entries with
  | [] => []
  | entry :: rest =>
      let key := VocabCSVWriter.entry_key entry in
      if decide (key ∈ seen ∨ key ∈ earlier)
      then first_unseen seen (key :: earlier) rest
      else entry :: first_unseen seen (key :: earlier) rest
  end.

(** The three top-level keys of the schema document. *)
Definition required_keys : list string :=
  ["columns"; "verb_exceptions"; "irregular_verbs"].

(** The number a string of decimal digits denotes, most significant digit
    first, continuing from [acc]. *)
Fixpoint uint_value (acc : Z) (d : Decimal.uint) : Z :=
  match d with
  | Decimal.Nil => acc
  | Decimal.D0 l => uint_value (10 * acc + 0) l
  | Decimal.D1 l => uint_value (10 * acc + 1) l
  | Decimal.D2 l => uint_value (10 * acc + 2) l
  | Decimal.D3 l => uint_value (10 * acc + 3) l
  | Decimal.D4 l => uint_value (10 * acc + 4) l
  | Decimal.D5 l => uint_value (10 * acc + 5) l
  | Decimal.D6 l => uint_value (10 * acc + 6) l
  | Decimal.D7 l => uint_value (10 * acc + 7) l
  | Decimal.D8 l => uint_value (10 * acc + 8) l
  | Decimal.D9 l => uint_value (10 * acc + 9) l
  end.

(** The answers to the requests for [bs], numbered from [call] on, end to
    end, leaving out the requests that raised. *)
Fixpoint succeeded_results
    (chain_invoke : prompt_template → string → nat → list vocab_item →
                    result (list (gmap string string)))
    (template : prompt_template) (model : string)
    (call : nat) (bs : list (list (gmap string pyval)))
  : list (gmap string string) :=
  match bs with
  | [] => []
  | batch :: rest =>
      match process_vocab_batch chain_invoke template model call batch with
      | Ok results => results
      | Raise _ => []
      end ++ succeeded_results chain_invoke template model (S call) rest
  end.

(** The number of rows of a lesson; none when the lesson has no file. *)
Definition lesson_rows (w : world) (lesson_num : string) : nat :=
  match load_lesson_vocab w lesson_num with
  | Ok vocab_items => length vocab_items
  | Raise _ => 0
  end.

(** The header of the lesson files. *)
Definition genki_header : list string :=
  ["No."; "単語"; "漢字表記"; "品詞"; "英訳"; "課数"].

(** The counters of a run. *)
Definition counters (st : run) : nat * nat * nat :=
  (grand_total_processed st, grand_total_items st, calls st).


(** Where [split_genki.main] puts a row: the lesson key of its sixth cell,
    or the reason why it is not sorted. *)
Definition row_destination (decimal : N → option N) (limit : nat)
    (row : list (list N))
  : split_genki.outcome (option (list N) * option (list N)) :=
  if decide (length row < 6)
  then split_genki.Returns
         (None, Some (split_genki.lit "row has fewer than 6 columns"))
  else split_genki.extract_first_lesson decimal limit (default [] (row !! 5)).

Definition destination_key (decimal : N → option N) (limit : nat)
    (row : list (list N)) : option (list N) :=
  match row_destination decimal limit row with
  | split_genki.Returns r => r.1
  | split_genki.Raises _ => None
  end.

(** What a text starts with is no decimal digit. *)
Definition no_leading_digit (decimal : N → option N) (t : list N) : Prop :=
  match t with
  | c :: _ => decimal c = None
  | [] => True
  end.

(** The rows [split_genki.main] sends to the file of a key, and the rows
    it leaves unsorted with their reasons, in the order of the input. *)
Definition rows_of_key (decimal : N → option N) (limit : nat)
    (lesson_key : list N) (rows : list (list (list N)))
  : list (list (list N)) :=
  filter (λ row, destination_key decimal limit row = Some lesson_key) rows.

Definition unsorted_items (decimal : N → option N) (limit : nat)
    (rows : list (list (list N)))
  : list (list (list N) * option (list N)) :=
  omap (λ row, match row_destination decimal limit row with
               | split_genki.Returns (None, warning) => Some (row, warning)
               | _ => None
               end) rows.

(** ** Sample data *)

Definition taberu : gmap string string :=
  {[ "kanji" := "食べる"; "reading" := "たべる"; "english" := "to eat";
     "pos" := "Ru-Verb (Trans)"; "polite" := "食べます"; "te_form" := "食べて";
     "negative" := "食べない"; "past" := "食べた"; "notes" := "" ]}.

(** The same key as [taberu], another gloss, no notes key at all. *)
Definition taberu_bis : gmap string string :=
  {[ "kanji" := "食べる"; "reading" := "たべる"; "english" := "eat";
     "pos" := "Ru-Verb (Trans)" ]}.


Definition sample_store : option csv.text :=
  Some [ VocabCSVWriter.FIELDNAMES;
         ["本"; "ほん"; "book"; "Noun"; "-"; "-"; "-"; "-"; ""] ].

Definition sample_schema : json :=
  JObject [ ("columns", JArray [JString "Kanji"; JString "Reading (Kana)"]);
            ("verb_exceptions", JObject [("帰る", JString "U-Verb")]);
            ("irregular_verbs", JObject [("する", JObject [])]) ].

(** A schema document without the irregular verbs. *)
Definition short_schema : json :=
  JObject [ ("columns", JArray [JString "Kanji"; JString "Reading (Kana)"]);
            ("verb_exceptions", JObject [("帰る", JString "U-Verb")]) ].

Definition sample_template : prompt_template :=
  {| columns_info := JArray [JString "Kanji"; JString "Reading (Kana)"];
     verb_exceptions := JObject [("帰る", JString "U-Verb")];
     irregular_verbs := JObject [("する", JObject [])] |}.

(** Five rows: three batches of two, two and one; the last row is short. *)
Definition lesson_01 : list (list string) :=
  [ ["No."; "単語"; "漢字表記"; "品詞"; "英訳"; "課数"];
    ["1"; "ほん"; "本"; "n."; "book"; "会L1"];
    ["2"; "たべる"; "食べる"; "v."; "to eat"; "会L1"];
    ["3"; "がくせい"; "学生"; "n."; "student"; "会L1"];
    ["4"; "いま"; "今"; "n."; "now"; "会L1"];
    ["5"; "ねこ"] ].

Definition sample_world : world :=
  {| OPENAI_API_KEY := Some "sk-test";
     SCHEMA_PATH := Some (Json sample_schema);
     PROCESSED_DIR := {[ lesson_file "01" := lesson_01 ]};
     OUTPUT_CSV := sample_store |}.

Definition short_schema_world : world :=
  {| OPENAI_API_KEY := Some "sk-test";
     SCHEMA_PATH := Some (Json short_schema);
     PROCESSED_DIR := {[ lesson_file "01" := lesson_01 ]};
     OUTPUT_CSV := sample_store |}.

(** A chain that answers one object per item, and raises on its second
    request. *)
Definition sample_chain (template : prompt_template) (model : string)
    (call : nat) (items : list vocab_item)
  : result (list (gmap string string)) :=
  if decide (call = 1) then Raise (ChainError "rate limit")
  else Ok ((λ item,
              ({[ "kanji" := default "" (kanji_form item);
                  "reading" := default "" (word_kana item);
                  "english" := default "" (english item) ]}
               : gmap string string)) <$> items).

Definition sample_args : args :=
  {| lesson := "1-2"; model := "gpt-5-mini"; batch_size := 2;
     dry_run := false |}.

Definition sample_dry_args : args :=
  {| lesson := "1-2"; model := "gpt-5-mini"; batch_size := 2;
     dry_run := true |}.

Definition sample_zero_args : args :=
  {| lesson := "1-2"; model := "gpt-5-mini"; batch_size := 0;
     dry_run := false |}.

Definition sample_descending_args : args :=
  {| lesson := "5-3"; model := "gpt-5-mini"; batch_size := 20;
     dry_run := false |}.

(** A sample input of split_genki.py, the cells as code points: a row of
    lesson 3 (会L3), a row with two cells, a row of the greetings (会G) and
    a second row of lesson 3 (読L3-II). *)
Definition split_header : list (list N) :=
  split_genki.lit <$> ["No."; "word"; "kanji"; "pos"; "english"; "lesson"].

Definition split_row_L3 : list (list N) :=
  (split_genki.lit <$> ["1"; "taberu"; ""; "v."; "to eat"])
  ++ [[20250; 76; 51]%N].

Definition split_row_short : list (list N) :=
  split_genki.lit <$> ["2"; "hon"].

Definition split_row_G : list (list N) :=
  (split_genki.lit <$> ["3"; "ohayou"; ""; "exp."; "good morning"])
  ++ [[20250; 71]%N].

Definition split_row_L3_bis : list (list N) :=
  (split_genki.lit <$> ["4"; "nomu"; ""; "v."; "to drink"])
  ++ [[35501; 76; 51; 45; 73; 73]%N].

Definition split_rows : list (list (list N)) :=
  [split_row_L3; split_row_short; split_row_G; split_row_L3_bis].

(** The files of the sample input: two lessons, and the unsorted rows. *)
Definition sample_split_files : gmap (list N) (list (list (list N))) :=
  {[ split_genki.lit "genki_vocab_L03.csv" :=
       [split_header; split_row_L3; split_row_L3_bis];
     split_genki.lit "genki_vocab_L00.csv" := [split_header; split_row_G];
     split_genki.lit "genki_vocab_unsorted.csv" :=
       [split_header ++ [split_genki.lit "_sort_error"];
        split_row_short ++ replicate 4 []
        ++ [split_genki.lit "row has fewer than 6 columns"]] ]}.

(** * Properties *)

(** ** Lemmas on the writer *)

Section writer_facts.
Import VocabCSVWriter.


Lemma load_existing_spec (self : t) (f : csv.text) :
  ∃ w, _load_existing self (Some f) = Ok w
       ∧ existing_entries w = existing_entries self ∪ list_to_set (file_keys f)
       ∧ added_count w = added_count self
       ∧ skipped_count w = skipped_count self.
Proof.
  unfold _load_existing, file_keys. eexists; split; [reflexivity|].
  generalize (csv.DictReader f) as rows. intros rows. revert self.
  induction rows as [|row rows IH]; intros self; simpl.
  - repeat split. set_solver.
  - destruct (IH {| existing_entries := existing_entries self ∪ {[row_key row]};
                   added_count := added_count self;
                   skipped_count := skipped_count self |}) as (-> & -> & ->).
    simpl. repeat split. set_solver.
Qed.





(** Several calls in a row are one pass over the concatenation. *)
Lemma write_entries_batches (batches : list (list (gmap string string))) :
  ∀ (w : t) (f : csv.text),
  foldl (λ st es, write_entries st.1 st.2 es) (w, Some f) batches
  = ((foldl write_entry (w, f) (concat batches)).1,
     Some (foldl write_entry (w, f) (concat batches)).2).
Proof.
  induction batches as [|es batches IH]; intros w f; [done|].
  simpl. rewrite foldl_app.
  unfold write_entries at 2. simpl.
  rewrite IH. by rewrite <- surjective_pairing.
Qed.

Lemma init_spec (out : option csv.text) :
  ∃ w, __init__ out = Ok (w, _ensure_header out)
       ∧ existing_entries w
         = list_to_set (file_keys (records (_ensure_header out)))
       ∧ added_count w = 0 ∧ skipped_count w = 0.
Proof.
  unfold __init__.
  assert (∃ f, _ensure_header out = Some f) as [f Hf].
  { unfold _ensure_header. destruct out as [f|]; [|by eexists].
    destruct (size_is_zero f); by eexists. }
  rewrite Hf. destruct (load_existing_spec fresh f) as (w & -> & Hset & ? & ?).
  exists w. simpl. repeat split; try done. rewrite Hset. set_solver.
Qed.

End writer_facts.

Section writer_properties.
Import VocabCSVWriter.





(** C10. Constructing the writer always succeeds.  It leaves the file with
    the nine-column header alone when there was no file, and also when the
    file was there with nothing in it; a file with content is left as it
    was. *)
Theorem init_header (out : option csv.text) :
  length FIELDNAMES = 9
  ∧ ∃ w, __init__ out
         = Ok (w, match out with
                  | None => Some [FIELDNAMES]
                  | Some [] => Some [FIELDNAMES]
                  | Some (r :: f) => Some (r :: f)
                  end).
Proof.
  split; [reflexivity|].
  destruct (init_spec out) as (w & Hinit & _). exists w.
  rewrite Hinit. by destruct out as [[|r f]|].
Qed.

(** The loop of [write_entries] from a state whose key set is [seen]
    extended by the keys of the entries [earlier] in the sequence. *)
Lemma foldl_write_entry_first_unseen (entries : list (gmap string string)) :
  ∀ (st : t * csv.text) (seen : gset (pyval * pyval))
    (earlier : list (pyval * pyval)),
  existing_entries st.1 = seen ∪ list_to_set earlier →
  let kept := first_unseen seen earlier entries in
  (foldl write_entry st entries).2 = st.2 ++ (entry_row <$> kept)
  ∧ added_count (foldl write_entry st entries).1
    = added_count st.1 + length kept
  ∧ skipped_count (foldl write_entry st entries).1 + length kept
    = skipped_count st.1 + length entries.
Proof.
  induction entries as [|e entries IH]; intros st seen earlier Hseen; simpl.
  - rewrite app_nil_r. repeat split; lia.
  - assert (Hiff : entry_key e ∈ existing_entries st.1
                   ↔ entry_key e ∈ seen ∨ entry_key e ∈ earlier).
    { rewrite Hseen, elem_of_union, elem_of_list_to_set. tauto. }
    unfold write_entry at 2 4 6.
    destruct (decide (entry_key e ∈ existing_entries st.1)) as [Hin|Hnin];
      destruct (decide (entry_key e ∈ seen ∨ entry_key e ∈ earlier))
        as [Hin'|Hnin']; try tauto.
    + destruct (IH ({| existing_entries := existing_entries st.1;
                       added_count := added_count st.1;
                       skipped_count := S (skipped_count st.1) |}, st.2)
                   seen (entry_key e :: earlier)) as (Hf & Hadd & Hskip).
      { simpl. rewrite Hseen. clear -Hin'. set_solver. }
      simpl in Hf, Hadd, Hskip. repeat split; [done|done|lia].
    + destruct (IH ({| existing_entries :=
                         existing_entries st.1 ∪ {[entry_key e]};
                       added_count := S (added_count st.1);
                       skipped_count := skipped_count st.1 |},
                    st.2 ++ [entry_row e])
                   seen (entry_key e :: earlier)) as (Hf & Hadd & Hskip).
      { simpl. rewrite Hseen. clear. set_solver. }
      simpl in Hf, Hadd, Hskip. rewrite <- app_assoc in Hf.
      repeat split; [done|simpl; lia|simpl; lia].
Qed.

(** C5, as the code has it.  One call of [write_entries] does suppress
    duplicate keys inside its sequence: an entry is appended exactly when
    its key is neither in the key set the call starts with nor the key of
    an earlier entry of the same sequence, and every other entry counts as
    skipped.  The rows appended in one call have pairwise distinct keys. *)
Theorem write_entries_first_occurrences (self : t) (out : option csv.text)
    (entries : list (gmap string string)) :
  let kept := first_unseen (existing_entries self) [] entries in
  let r := write_entries self out entries in
  r.2 = Some (records out ++ (entry_row <$> kept))
  ∧ added_count r.1 = added_count self + length kept
  ∧ skipped_count r.1 + length kept = skipped_count self + length entries
  ∧ NoDup (entry_key <$> kept).
Proof.
  intros kept r. subst kept r. unfold write_entries. simpl.
  destruct (foldl_write_entry_first_unseen entries (self, default [] out)
              (existing_entries self) []) as (Hf & Hadd & Hskip).
  { simpl. clear. set_solver. }
  cbn [fst snd] in Hf, Hadd, Hskip. rewrite Hf.
  repeat split; try done.
  generalize (existing_entries self) as seen. intros seen.
  assert (Hgen : ∀ earlier,
            NoDup (entry_key <$> first_unseen seen earlier entries)
            ∧ ∀ k, k ∈ earlier →
                k ∉ entry_key <$> first_unseen seen earlier entries).
  { clear. induction entries as [|e entries IH]; intros earlier; simpl.
    - split; [constructor|]. intros k _ Hk. by apply elem_of_nil in Hk.
    - destruct (IH (entry_key e :: earlier)) as [Hnd Hnot].
      destruct (decide _) as [Hin|Hnin].
      + split; [done|]. intros k Hk. apply Hnot. by right.
      + split.
        * rewrite fmap_cons. constructor; [|done]. apply Hnot. by left.
        * intros k Hk. rewrite fmap_cons, not_elem_of_cons. split.
          -- intros ->. apply Hnin. by right.
          -- apply Hnot. by right. }
  apply Hgen.
Qed.

(** C5 as the specification states it fails: of two entries with one key that the
    store does not hold, written in one call to a fresh store, only the
    first is appended and the second is counted as skipped. *)
Lemma within_batch_dedup_counterexample :
  entry_key taberu = entry_key taberu_bis
  ∧ (entry_key taberu ∉ existing_entries fresh)
  ∧ (write_entries fresh (Some [FIELDNAMES]) [taberu; taberu_bis]).2
    = Some [FIELDNAMES; entry_row taberu]
  ∧ (write_entries fresh (Some [FIELDNAMES]) [taberu; taberu_bis]).2
    ≠ Some [FIELDNAMES; entry_row taberu; entry_row taberu_bis]
  ∧ skipped_count
      (write_entries fresh (Some [FIELDNAMES]) [taberu; taberu_bis]).1
    = 1.
Proof.
  split; [reflexivity|]. split; [apply not_elem_of_empty|].
  assert (H : (write_entries fresh (Some [FIELDNAMES]) [taberu; taberu_bis]).2
              = Some [FIELDNAMES; entry_row taberu]) by (by vm_compute).
  split; [exact H|]. split; [by rewrite H|]. by vm_compute.
Qed.

End writer_properties.

(** ** The lesson argument *)

Section lesson_arg.

Lemma contains_app (c : ascii) (sa sb : string) :
  py.contains c (sa +:+ String c sb) = true.
Proof. induction sa as [|c' sa IH]; simpl; case_decide; done. Qed.

Lemma split1_first (c : ascii) (sa sb : string) :
  py.contains c sa = false →
  py.split1 c (sa +:+ String c sb) = [sa; sb].
Proof.
  induction sa as [|c' sa IH]; simpl.
  - intros _. by case_decide.
  - case_decide; [done|]. intros Hsa. by rewrite (IH Hsa).
Qed.


Lemma length_string_of_uint (d : Decimal.uint) :
  String.length (NilEmpty.string_of_uint d) = Decimal.nb_digits d.
Proof. induction d; simpl; congruence. Qed.

(** Two digits at least from ten on. *)
Lemma length_str_ge_10 (n : Z) : (10 ≤ n)%Z → 2 ≤ String.length (py.str n).
Proof.
  intros Hn. destruct n as [|p|p]; try lia.
  unfold py.str. simpl.
  pose proof (DecimalPos.Unsigned.of_to p) as Hp.
  unfold NilZero.string_of_uint.
  destruct (Pos.to_uint p) as [|d|d|d|d|d|d|d|d|d|d] eqn:Hd;
    [simpl in Hp; discriminate|..];
    (destruct d; [|simpl; lia..]); simpl in Hp;
    first [discriminate | injection Hp as <-; lia].
Qed.


Lemma zfill_str_large (n : Z) :
  (10 ≤ n)%Z → py.zfill 2 (py.str n) = py.str n.
Proof.
  intros Hn. unfold py.zfill.
  pose proof (length_str_ge_10 n Hn) as Hlen.
  destruct (2 <=? String.length (py.str n)) eqn:Hle; [done|].
  apply Nat.leb_gt in Hle. lia.
Qed.




End lesson_arg.

(** ** Batches *)

Section batch_facts.
Context {A : Type}.
Implicit Types (l : list A) (b i : Z).

Lemma slice_index_nonneg (len : nat) i :
  (0 ≤ i)%Z → py.slice_index len i = Z.to_nat (Z.min i (Z.of_nat len)).
Proof. intros Hi. unfold py.slice_index. case_decide; [lia|]. f_equal. lia. Qed.

(** For a positive size the slice of turn [i] is the [i]-th run of
    [b] items. *)
Lemma batch_at_take_drop l b i :
  (0 < b)%Z → (0 ≤ i)%Z →
  batch_at l b i = take (Z.to_nat b) (drop (Z.to_nat i * Z.to_nat b) l).
Proof.
  intros Hb Hi. unfold batch_at, py.slice.
  rewrite !slice_index_nonneg by lia.
  assert (Hmul : Z.to_nat (i * b) = Z.to_nat i * Z.to_nat b) by nia.
  destruct (decide (i * b ≤ Z.of_nat (length l))%Z) as [Hle|Hgt].
  - replace (Z.to_nat (Z.min (i * b) (Z.of_nat (length l))))
      with (Z.to_nat i * Z.to_nat b) by lia.
    destruct (decide (i * b + b ≤ Z.of_nat (length l))%Z) as [Hle'|Hgt'].
    + f_equal. lia.
    + rewrite !take_ge; [done|rewrite length_drop; lia..].
  - rewrite (drop_ge l (Z.to_nat i * _)) by lia.
    rewrite take_nil. replace (_ - _) with 0 by lia. done.
Qed.

Lemma chunks_concat (b' : nat) (k : nat) :
  ∀ l, length l ≤ k * b' →
  concat ((λ j, take b' (drop (j * b') l)) <$> seq 0 k) = l.
Proof.
  induction k as [|k IH]; intros l Hl.
  - destruct l; [done|simpl in Hl; lia].
  - simpl seq. rewrite fmap_cons, <- fmap_S_seq, <- list_fmap_compose.
    simpl concat. rewrite drop_0.
    transitivity (take b' l ++ drop b' l); [|apply take_drop]. f_equal.
    etrans; [|apply (IH (drop b' l)); rewrite length_drop; lia].
    f_equal. apply list_fmap_ext. intros _ j _. simpl.
    by rewrite drop_drop.
Qed.

Lemma batches_take_drop l b :
  (0 < b)%Z →
  batches l b
  = Ok ((λ j, take (Z.to_nat b) (drop (j * Z.to_nat b) l))
          <$> seq 0 (Z.to_nat ((Z.of_nat (length l) + b - 1) `div` b))).
Proof.
  intros Hb. unfold batches, total_batches, py.floordiv, py.range.
  case_decide; [lia|]. simpl. f_equal.
  unfold seqZ. rewrite Z.sub_0_r, <- list_fmap_compose.
  apply list_fmap_ext. intros _ j _. simpl.
  rewrite batch_at_take_drop by lia. do 3 f_equal. lia.
Qed.

End batch_facts.

(** C8. Batch partitioning.  For a positive batch size [b] and [n] rows the
    loop visits ceil(n/b) batches (the number k with n <= k*b < n + b);
    put end to end they are the rows, each row once and in the original
    order; the batch of turn [i] is the [i]-th run of [b] rows; no batch
    is empty, none has more than [b] rows, and every batch but the last has
    exactly [b]. *)
Theorem batch_partitioning {A} (vocab_items : list A) (batch_size : Z) :
  (0 < batch_size)%Z →
  ∃ bs,
    batches vocab_items batch_size = Ok bs
    ∧ (Z.of_nat (length vocab_items) ≤ Z.of_nat (length bs) * batch_size
       < Z.of_nat (length vocab_items) + batch_size)%Z
    ∧ concat bs = vocab_items
    ∧ ∀ (i : nat) batch, bs !! i = Some batch →
        batch = take (Z.to_nat batch_size)
                  (drop (i * Z.to_nat batch_size) vocab_items)
        ∧ 0 < length batch ≤ Z.to_nat batch_size
        ∧ (S i < length bs → length batch = Z.to_nat batch_size).
Proof.
  intros Hb. rewrite batches_take_drop by done.
  set (n := Z.of_nat (length vocab_items)).
  set (t := ((n + batch_size - 1) `div` batch_size)%Z).
  assert (Ht : (batch_size * t ≤ n + batch_size - 1
                < batch_size * t + batch_size)%Z).
  { pose proof (Z.div_mod (n + batch_size - 1) batch_size ltac:(lia)) as Hdm.
    pose proof (Z.mod_pos_bound (n + batch_size - 1) batch_size Hb) as Hm.
    fold t in Hdm. lia. }
  assert (Ht0 : (0 ≤ t)%Z) by (subst n; nia).
  eexists. split; [reflexivity|].
  rewrite length_fmap, length_seq. split; [lia|]. split.
  - apply chunks_concat. subst n. nia.
  - intros i batch Hi.
    apply list_lookup_fmap_Some in Hi as (j & -> & Hj).
    apply lookup_seq in Hj as [-> Hlt]. simpl.
    split; [done|]. rewrite length_take, length_drop.
    assert (Hin : (Z.of_nat i * batch_size < n)%Z) by nia.
    assert (Hmul : Z.of_nat (i * Z.to_nat batch_size)
                   = (Z.of_nat i * batch_size)%Z) by nia.
    subst n. split; [lia|]. intros Hnext.
    assert ((Z.of_nat i + 1) * batch_size < Z.of_nat (length vocab_items))%Z
      by nia.
    lia.
Qed.

Lemma batch_partitioning_witness :
  (0 < 20)%Z
  ∧ ∃ bs,
      batches (seq 1 45) 20 = Ok bs
      ∧ (Z.of_nat (length (seq 1 45)) ≤ Z.of_nat (length bs) * 20
         < Z.of_nat (length (seq 1 45)) + 20)%Z
      ∧ concat bs = seq 1 45
      ∧ ∀ (i : nat) batch, bs !! i = Some batch →
          batch = take (Z.to_nat 20) (drop (i * Z.to_nat 20) (seq 1 45))
          ∧ 0 < length batch ≤ Z.to_nat 20
          ∧ (S i < length bs → length batch = Z.to_nat 20).
Proof.
  assert (H : (0 < 20)%Z) by lia.
  exact (conj H (batch_partitioning (seq 1 45) 20 H)).
Defined.

(** 45 rows in batches of 20: sizes 20, 20 and 5. *)
Example batch_sizes_45_20 :
  ∃ bs, batches (seq 1 45) 20 = Ok bs ∧ length <$> bs = [20; 20; 5].
Proof. eexists. split; reflexivity. Qed.

(** ** The orchestrator *)

Section orchestrator.
Variable chain_invoke :
  prompt_template → string → nat → list vocab_item →
  result (list (gmap string string)).
Variables (a : args) (template : prompt_template) (w : world).

Lemma succeeded_items_app (bs1 bs2 : list (list (gmap string pyval))) :
  ∀ call,
  succeeded_items chain_invoke template (model a) call (bs1 ++ bs2)
  = succeeded_items chain_invoke template (model a) call bs1
    + succeeded_items chain_invoke template (model a)
        (call + length bs1) bs2.
Proof.
  induction bs1 as [|batch bs1 IH]; intros call; simpl.
  - by rewrite Nat.add_0_r.
  - rewrite IH.
    replace (S call + length bs1) with (call + S (length bs1)) by lia. lia.
Qed.

(** One turn of the batch loop: one request, whatever its outcome; the
    counter grows by the length of the answer, or not at all. *)
Lemma process_batch_counts (vocab_items : list (gmap string pyval))
    (total : Z) (st : run) (batch_num : Z) :
  let r := process_batch chain_invoke a template vocab_items total st
             batch_num in
  calls r.1 = S (calls st)
  ∧ grand_total_items r.1 = grand_total_items st
  ∧ grand_total_processed r.1
    = grand_total_processed st
      + succeeded_items chain_invoke template (model a) (calls st)
          [batch_at vocab_items (batch_size a) batch_num].
Proof.
  unfold process_batch. simpl.
  destruct (process_vocab_batch _ _ _ _ _) as [results|e]; simpl.
  - destruct (csv_writer st); simpl; repeat split; lia.
  - repeat split; lia.
Qed.

Lemma batch_loop_counts (vocab_items : list (gmap string pyval)) (total : Z)
    (batch_nums : list Z) :
  ∀ st,
  let r := batch_loop chain_invoke a template vocab_items total st batch_nums in
  calls r.1 = calls st + length batch_nums
  ∧ grand_total_items r.1 = grand_total_items st
  ∧ grand_total_processed r.1
    = grand_total_processed st
      + succeeded_items chain_invoke template (model a) (calls st)
          (batch_at vocab_items (batch_size a) <$> batch_nums).
Proof.
  induction batch_nums as [|batch_num rest IH]; intros st; csimpl.
  - repeat split; lia.
  - destruct (process_batch_counts vocab_items total st batch_num)
      as (Hc & Hi & Hp).
    destruct (IH (process_batch chain_invoke a template vocab_items total
                    st batch_num).1) as (Hc' & Hi' & Hp').
    simpl in Hp. rewrite Hc', Hi', Hp', Hc, Hi, Hp.
    repeat split; lia.
Qed.

Lemma process_lesson_counts (st : run) (lesson_num : string) :
  batch_size a ≠ 0%Z →
  let r := process_lesson chain_invoke a template w st lesson_num in
  r.2 = None
  ∧ calls r.1.1
    = calls st + length (lesson_batches w (batch_size a) lesson_num)
  ∧ grand_total_processed r.1.1
    = grand_total_processed st
      + succeeded_items chain_invoke template (model a) (calls st)
          (lesson_batches w (batch_size a) lesson_num).
Proof.
  intros Hb. unfold process_lesson, lesson_batches, batches.
  unfold load_lesson_vocab.
  destruct (PROCESSED_DIR w !! lesson_file lesson_num) as [f|]; simpl.
  - unfold total_batches, py.floordiv. case_decide; [done|]. simpl.
    match goal with |- context [batch_loop _ _ _ ?i ?t ?s ?n] =>
      destruct (batch_loop_counts i t n s) as (Hc & _ & Hp) end.
    rewrite Hc, Hp, length_fmap. simpl. done.
  - repeat split; lia.
Qed.

Lemma lesson_loop_counts (lesson_nums : list string) :
  batch_size a ≠ 0%Z →
  ∀ st,
  let r := lesson_loop chain_invoke a template w st lesson_nums in
  r.2 = None
  ∧ calls r.1.1
    = calls st + length (run_batches w (batch_size a) lesson_nums)
  ∧ grand_total_processed r.1.1
    = grand_total_processed st
      + succeeded_items chain_invoke template (model a) (calls st)
          (run_batches w (batch_size a) lesson_nums).
Proof.
  intros Hb. unfold run_batches.
  induction lesson_nums as [|lesson_num rest IH]; intros st; csimpl.
  - repeat split; lia.
  - destruct (process_lesson_counts st lesson_num Hb) as (He & Hc & Hp).
    destruct (process_lesson chain_invoke a template w st lesson_num)
      as [[st' out] e].
    simpl in He, Hc, Hp. subst e.
    destruct (IH st') as (He' & Hc' & Hp').
    destruct (lesson_loop chain_invoke a template w st' rest)
      as [[st'' out'] e'].
    csimpl in *. subst e'.
    rewrite length_app, succeeded_items_app, Hc', Hp', Hc, Hp.
    repeat split; lia.
Qed.

(** *** Dry run: the state of the loop when there is no writer *)

Lemma process_batch_dry (vocab_items : list (gmap string pyval)) (total : Z)
    (st : run) (batch_num : Z) :
  csv_writer st = None →
  let r := process_batch chain_invoke a template vocab_items total st
             batch_num in
  output r.1 = output st ∧ csv_writer r.1 = None.
Proof.
  intros Hw. unfold process_batch. rewrite Hw.
  by destruct (process_vocab_batch _ _ _ _ _).
Qed.

Lemma batch_loop_dry (vocab_items : list (gmap string pyval)) (total : Z)
    (batch_nums : list Z) :
  ∀ st, csv_writer st = None →
  let r := batch_loop chain_invoke a template vocab_items total st batch_nums in
  output r.1 = output st ∧ csv_writer r.1 = None.
Proof.
  induction batch_nums as [|batch_num rest IH]; intros st Hw; simpl; [done|].
  destruct (process_batch_dry vocab_items total st batch_num Hw) as [Ho Hw'].
  destruct (IH _ Hw') as [Ho' Hw'']. by rewrite Ho', Ho.
Qed.

Lemma process_lesson_dry (st : run) (lesson_num : string) :
  csv_writer st = None →
  let r := process_lesson chain_invoke a template w st lesson_num in
  output r.1.1 = output st ∧ csv_writer r.1.1 = None.
Proof.
  intros Hw. unfold process_lesson.
  destruct (load_lesson_vocab w lesson_num) as [vocab_items|[]]; simpl;
    try done.
  destruct (total_batches _ _) as [total|e]; simpl; [|done].
  match goal with |- context [batch_loop _ _ _ ?i ?t ?s ?n] =>
    destruct (batch_loop_dry i t n s Hw) as [Ho Hw'] end.
  done.
Qed.

Lemma lesson_loop_dry (lesson_nums : list string) :
  ∀ st, csv_writer st = None →
  let r := lesson_loop chain_invoke a template w st lesson_nums in
  output r.1.1 = output st ∧ csv_writer r.1.1 = None.
Proof.
  induction lesson_nums as [|lesson_num rest IH]; intros st Hw; simpl; [done|].
  destruct (process_lesson_dry st lesson_num Hw) as [Ho Hw'].
  destruct (process_lesson chain_invoke a template w st lesson_num)
    as [[st' out] [e|]]; simpl in *; [done|].
  destruct (IH st' Hw') as [Ho' Hw''].
  destruct (lesson_loop chain_invoke a template w st' rest) as [[st'' out'] e'].
  simpl in *. by rewrite Ho', Ho.
Qed.

(** *** Lessons one after the other *)

Lemma lesson_loop_app (l1 l2 : list string) :
  ∀ st,
  lesson_loop chain_invoke a template w st (l1 ++ l2)
  = match lesson_loop chain_invoke a template w st l1 with
    | (st1, out1, Some e) => (st1, out1, Some e)
    | (st1, out1, None) =>
        match lesson_loop chain_invoke a template w st1 l2 with
        | (st2, out2, e) => (st2, out1 ++ out2, e)
        end
    end.
Proof.
  induction l1 as [|lesson_num l1 IH]; intros st; simpl.
  - by destruct (lesson_loop chain_invoke a template w st l2) as [[? ?] ?].
  - destruct (process_lesson chain_invoke a template w st lesson_num)
      as [[st' out] [e|]]; [done|].
    rewrite IH.
    destruct (lesson_loop chain_invoke a template w st' l1)
      as [[st1 out1] [e|]]; [done|].
    destruct (lesson_loop chain_invoke a template w st1 l2) as [[st2 out2] e].
    by rewrite app_assoc.
Qed.


(** C7. Missing lesson.  Loading a lesson that has no file raises
    FileNotFoundError; the lesson loop prints the skip, leaves the state as
    it was and raises nothing; so the run on a list with such a lesson in it
    ends in the state, and with the exception if any, of the run on the list
    without it, and prints the same lines with the skip among them. *)
Theorem missing_lesson_skip (st : run) (pre post : list string)
    (lesson_num : string) :
  PROCESSED_DIR w !! lesson_file lesson_num = None →
  let skip := [Lesson_banner lesson_num;
               Skipping (FileNotFoundError (lesson_file lesson_num))] in
  load_lesson_vocab w lesson_num
  = Raise (FileNotFoundError (lesson_file lesson_num))
  ∧ process_lesson chain_invoke a template w st lesson_num = (st, skip, None)
  ∧ ∀ st1 out1,
      lesson_loop chain_invoke a template w st pre = (st1, out1, None) →
      let r := lesson_loop chain_invoke a template w st1 post in
      lesson_loop chain_invoke a template w st (pre ++ lesson_num :: post)
      = (r.1.1, out1 ++ skip ++ r.1.2, r.2)
      ∧ lesson_loop chain_invoke a template w st (pre ++ post)
        = (r.1.1, out1 ++ r.1.2, r.2).
Proof.
  intros Hnone skip.
  assert (Hload : load_lesson_vocab w lesson_num
                  = Raise (FileNotFoundError (lesson_file lesson_num))).
  { unfold load_lesson_vocab. by rewrite Hnone. }
  assert (Hstep : ∀ st', process_lesson chain_invoke a template w st' lesson_num
                         = (st', skip, None)).
  { intros st'. unfold process_lesson. by rewrite Hload. }
  split; [done|]. split; [done|].
  intros st1 out1 Hpre. rewrite !lesson_loop_app, Hpre. simpl.
  rewrite Hstep.
  by destruct (lesson_loop chain_invoke a template w st1 post)
    as [[st2 out2] e].
Qed.

End orchestrator.

(** C6. Dry run.  With the dry-run flag set [main] never has a writer, and
    the output file at the end is the output file at the start, whatever
    the lessons, the answers of the requests and the way the run ends. *)
Theorem dry_run_no_side_effects
    (chain_invoke : prompt_template → string → nat → list vocab_item →
                    result (list (gmap string string)))
    (a : args) (w : world) :
  dry_run a = true →
  let r := main chain_invoke a w in
  output r.1.1 = OUTPUT_CSV w ∧ csv_writer r.1.1 = None.
Proof.
  intros Hdry. unfold main. rewrite Hdry.
  destruct (py.falsy _); [done|].
  destruct (parse_lesson_arg _) as [lesson_nums|e]; [|done].
  destruct (rbind _ _) as [tpl|e]; [|done].
  destruct (lesson_loop_dry chain_invoke a tpl w lesson_nums
              (start (OUTPUT_CSV w) None) eq_refl)
    as [Ho Hw].
  destruct (lesson_loop chain_invoke a tpl w _ _) as [[st printed] [e|]];
    done.
Qed.


(** ** The schema *)

Lemma subscript_member (members : list (string * json)) (key : string) :
  key ∈ members.*1 → ∃ v, subscript (JObject members) key = Ok v.
Proof.
  intros Hin. unfold subscript.
  destruct (list_to_map (reverse members) !! key) as [v|] eqn:Hv; [by eexists|].
  apply not_elem_of_list_to_map in Hv.
  rewrite fmap_reverse, elem_of_reverse in Hv. done.
Qed.

Lemma subscript_no_member (members : list (string * json)) (key : string) :
  key ∉ members.*1 → subscript (JObject members) key = Raise (KeyError key).
Proof.
  intros Hnin. unfold subscript.
  rewrite (proj1 (not_elem_of_list_to_map _ key)); [done|].
  by rewrite fmap_reverse, elem_of_reverse.
Qed.

(** C9, as the code has it.  [load_schema] raises FileNotFoundError when the
    file is absent and JSONDecodeError when its text is not JSON; any JSON
    document is returned as it is, whatever its shape.  A document that
    is not an object (TypeError) or lacks one of the three keys (KeyError)
    makes [create_batch_prompt_template] raise, and an object that has the
    three keys binds; in [main] either exception ends the run before any
    lesson is read, with no writer and the output file as it was. *)
Theorem schema_loading (w : world) :
  (SCHEMA_PATH w = None →
     load_schema w = Raise (FileNotFoundError "vocab_schema.json"))
  ∧ (SCHEMA_PATH w = Some NotJson → load_schema w = Raise JSONDecodeError)
  ∧ (∀ v, SCHEMA_PATH w = Some (Json v) →
       load_schema w = Ok v
       ∧ ((∀ members, v ≠ JObject members) →
            create_batch_prompt_template v = Raise TypeError)
       ∧ (∀ members, v = JObject members →
            (∀ key, key ∈ required_keys → key ∈ members.*1) →
            ∃ t, create_batch_prompt_template v = Ok t)
       ∧ (∀ members key, v = JObject members →
            key ∈ required_keys → key ∉ members.*1 →
            ∃ key', key' ∈ required_keys ∧ (key' ∉ members.*1)
                    ∧ create_batch_prompt_template v = Raise (KeyError key')))
  ∧ (∀ chain_invoke a lesson_nums e,
       py.falsy (OPENAI_API_KEY w) = false →
       parse_lesson_arg (lesson a) = Ok lesson_nums →
       (schema <- load_schema w ;; create_batch_prompt_template schema)
       = Raise e →
       main chain_invoke a w
       = (start (OUTPUT_CSV w) None,
          [Processing_lessons lesson_nums; Loading_schema], Some e)).
Proof.
  split; [|split; [|split]].
  - intros H. unfold load_schema. by rewrite H.
  - intros H. unfold load_schema. by rewrite H.
  - intros v H. split; [unfold load_schema; by rewrite H|].
    split; [|split].
    + intros Hno. destruct v; try done. by destruct (Hno members).
    + intros members -> Hall. unfold create_batch_prompt_template.
      destruct (subscript_member members "columns") as [c ->];
        [apply Hall; set_solver|]. cbn [rbind].
      destruct (subscript_member members "verb_exceptions") as [x ->];
        [apply Hall; set_solver|]. cbn [rbind].
      destruct (subscript_member members "irregular_verbs") as [i ->];
        [apply Hall; set_solver|]. cbn [rbind].
      by eexists.
    + intros members key -> Hreq Hnin. unfold create_batch_prompt_template.
      destruct (decide ("columns" ∈ members.*1)) as [Hc|Hc];
        [|exists "columns"; rewrite (subscript_no_member _ _ Hc);
          split; [set_solver|done]].
      destruct (subscript_member _ _ Hc) as [c ->]. cbn [rbind].
      destruct (decide ("verb_exceptions" ∈ members.*1)) as [Hx|Hx];
        [|exists "verb_exceptions"; rewrite (subscript_no_member _ _ Hx);
          split; [set_solver|done]].
      destruct (subscript_member _ _ Hx) as [x ->]. cbn [rbind].
      destruct (decide ("irregular_verbs" ∈ members.*1)) as [Hi|Hi];
        [|exists "irregular_verbs"; rewrite (subscript_no_member _ _ Hi);
          split; [set_solver|done]].
      exfalso. unfold required_keys in Hreq.
      rewrite !elem_of_cons, elem_of_nil in Hreq.
      destruct Hreq as [->|[->|[->|[]]]]; done.
  - intros chain_invoke a lesson_nums e Hkey Hparse Hschema. unfold main.
    by rewrite Hkey, Hparse, Hschema.
Qed.

Lemma schema_loading_witness :
  load_schema short_schema_world = Ok short_schema
  ∧ (∃ key', key' ∈ required_keys
             ∧ (key' ∉ [ ("columns", JArray [JString "Kanji";
                                              JString "Reading (Kana)"]);
                         ("verb_exceptions",
                          JObject [("帰る", JString "U-Verb")]) ].*1)
             ∧ create_batch_prompt_template short_schema
               = Raise (KeyError key'))
  ∧ main sample_chain sample_args short_schema_world
    = (start (OUTPUT_CSV short_schema_world) None,
       [Processing_lessons ["01"; "02"]; Loading_schema],
       Some (KeyError "irregular_verbs")).
Proof.
  destruct (schema_loading short_schema_world) as (_ & _ & Hjson & Hmain).
  destruct (Hjson short_schema eq_refl) as (Hload & _ & _ & Hkey).
  split; [exact Hload|]. split.
  - apply (Hkey _ "irregular_verbs" eq_refl).
    + unfold required_keys. set_solver.
    + simpl. rewrite !not_elem_of_cons. repeat split; try done.
      apply not_elem_of_nil.
  - apply Hmain; reflexivity.
Defined.

(** C9 as the specification states it fails on a document that lacks a
    key: the schema file holds an object without the irregular verbs, and
    loading it returns that object where the specification has loading
    raise. *)
Lemma schema_missing_key_counterexample :
  SCHEMA_PATH short_schema_world = Some (Json short_schema)
  ∧ subscript short_schema "irregular_verbs"
    = Raise (KeyError "irregular_verbs")
  ∧ load_schema short_schema_world = Ok short_schema
  ∧ ¬ ∃ e, load_schema short_schema_world = Raise e.
Proof.
  repeat split; try reflexivity. intros [e He]. discriminate.
Qed.

(** ** The sample run *)


(** The sample run: lesson 01 has five rows, so three batches of size two;
    the second request raises; lesson 02 has no file.  Three requests are
    made, three of the five items are processed, and the rows of the first
    and the third batch are appended ("本" was in the store already). *)
Example sample_run_outcome :
  let r := main sample_chain sample_args sample_world in
  r.2 = None
  ∧ calls r.1.1 = 3
  ∧ grand_total_processed r.1.1 = 3
  ∧ grand_total_items r.1.1 = 5
  ∧ records (output r.1.1)
    = records sample_store
      ++ [ ["食べる"; "たべる"; "to eat"; ""; ""; ""; ""; ""; ""];
           ["ねこ"; "ねこ"; ""; ""; ""; ""; ""; ""; ""] ]
  ∧ r.1.2
    = [ Processing_lessons ["01"; "02"]; Loading_schema;
        Lesson_banner "01"; Found 5;
        Processing_batch 1 3 2; Written 2;
        Processing_batch 2 3 2; Batch_error (ChainError "rate limit");
        Processing_batch 3 3 1; Written 1;
        Lesson_banner "02";
        Skipping (FileNotFoundError "genki_vocab_L02.csv");
        Summary 3 5 2; Writer_summary 2 1; Done ].
Proof. vm_compute. repeat split; reflexivity. Qed.

Lemma dry_run_no_side_effects_witness :
  dry_run sample_dry_args = true
  ∧ output (main sample_chain sample_dry_args sample_world).1.1
    = OUTPUT_CSV sample_world
  ∧ csv_writer (main sample_chain sample_dry_args sample_world).1.1 = None.
Proof.
  assert (H : dry_run sample_dry_args = true) by reflexivity.
  exact (conj H (dry_run_no_side_effects sample_chain sample_dry_args
                   sample_world H)).
Defined.

Lemma missing_lesson_skip_witness :
  PROCESSED_DIR sample_world !! lesson_file "99" = None
  ∧ load_lesson_vocab sample_world "99"
    = Raise (FileNotFoundError (lesson_file "99"))
  ∧ ∃ st1 out1,
      lesson_loop sample_chain sample_dry_args sample_template sample_world
        (start sample_store None) ["01"] = (st1, out1, None)
      ∧ lesson_loop sample_chain sample_dry_args sample_template sample_world
          (start sample_store None) ["01"; "99"]
        = (st1,
           out1 ++ [Lesson_banner "99";
                    Skipping (FileNotFoundError (lesson_file "99"))],
           None).
Proof.
  assert (H : PROCESSED_DIR sample_world !! lesson_file "99" = None)
    by (vm_compute; reflexivity).
  destruct (missing_lesson_skip sample_chain sample_dry_args sample_template
              sample_world (start sample_store None) ["01"] [] "99" H)
    as (Hload & _ & Hrun).
  split; [exact H|]. split; [exact Hload|].
  destruct (lesson_loop sample_chain sample_dry_args sample_template
              sample_world (start sample_store None) ["01"])
    as [[st1 out1] e] eqn:Hpre.
  assert (He : e = None).
  { apply (f_equal snd) in Hpre. vm_compute in Hpre. congruence. }
  subst e. exists st1, out1. split; [reflexivity|].
  destruct (Hrun st1 out1 eq_refl) as [Hwith _]. exact Hwith.
Defined.

(** * Further properties of the script *)

(** ** Lesson identifiers read back *)

Section identifiers.

Lemma more_digits_uint (d : Decimal.uint) :
  ∀ acc,
  py.more_digits acc false
    (String.list_ascii_of_string (NilEmpty.string_of_uint d))
  = Some (uint_value acc d).
Proof. induction d; intros acc; simpl; try done; apply IHd. Qed.

Lemma uint_value_of_uint_acc (d : Decimal.uint) :
  ∀ acc, Z.pos (Pos.of_uint_acc d acc) = uint_value (Z.pos acc) d.
Proof.
  induction d; intros acc; simpl; try done; rewrite IHd; f_equal; lia.
Qed.

Lemma uint_value_of_uint (d : Decimal.uint) :
  Z.of_N (Pos.of_uint d) = uint_value 0 d.
Proof.
  induction d; simpl; try done; by rewrite uint_value_of_uint_acc.
Qed.

Lemma uint_chars_no_space (d : Decimal.uint) :
  Forall (λ c, py.is_space c = false)
    (String.list_ascii_of_string (NilEmpty.string_of_uint d)).
Proof. induction d; simpl; constructor; done. Qed.

Lemma lstrip_no_space (l : list ascii) :
  Forall (λ c, py.is_space c = false) l → py.lstrip l = l.
Proof. destruct 1 as [|c l Hc _]; simpl; [done|]. by rewrite Hc. Qed.

Lemma strip_no_space (l : list ascii) :
  Forall (λ c, py.is_space c = false) l → py.strip l = l.
Proof.
  intros Hl. unfold py.strip. rewrite (lstrip_no_space l Hl).
  rewrite lstrip_no_space by by apply Forall_reverse.
  apply reverse_involutive.
Qed.

(** The digits of a positive number, read by [int]. *)
Lemma digits_to_uint (p : positive) :
  py.digits (String.list_ascii_of_string
               (NilEmpty.string_of_uint (Pos.to_uint p)))
  = Some (Z.pos p).
Proof.
  pose proof (DecimalPos.Unsigned.of_to p) as Hp.
  apply (f_equal Z.of_N) in Hp. rewrite uint_value_of_uint in Hp.
  simpl in Hp. rewrite <- Hp.
  destruct (Pos.to_uint p) as [|d|d|d|d|d|d|d|d|d|d] eqn:Hd;
    [by apply DecimalPos.Unsigned.to_uint_nonnil in Hd|..];
    simpl; apply more_digits_uint.
Qed.

Lemma string_of_uint_to_uint (p : positive) :
  NilZero.string_of_uint (Pos.to_uint p)
  = NilEmpty.string_of_uint (Pos.to_uint p).
Proof.
  destruct (Pos.to_uint p) eqn:Hd; try done.
  by apply DecimalPos.Unsigned.to_uint_nonnil in Hd.
Qed.

Lemma int_str (n : Z) : py.int (py.str n) = Ok n.
Proof.
  unfold py.int, py.str. destruct n as [|p|p]; [done|..]; simpl.
  - rewrite string_of_uint_to_uint.
    rewrite strip_no_space by apply uint_chars_no_space.
    pose proof (digits_to_uint p) as Hd.
    destruct (String.list_ascii_of_string _) as [|c l] eqn:Hl; [done|].
    assert (Hc : ∃ v, py.digit_of c = Some v).
    { simpl in Hd. destruct (py.digit_of c); [by eexists|done]. }
    destruct Hc as [v Hv].
    assert (c ≠ "-"%char ∧ c ≠ "+"%char) as [Hm Hp].
    { split; intros ->; vm_compute in Hv; discriminate. }
    rewrite !decide_False by done. by rewrite Hd.
  - rewrite string_of_uint_to_uint.
    rewrite strip_no_space
      by (constructor; [done|apply uint_chars_no_space]).
    rewrite decide_True by done. rewrite digits_to_uint. done.
Qed.

Lemma length_str_neg (p : positive) : 2 ≤ String.length (py.str (Z.neg p)).
Proof.
  unfold py.str. simpl. rewrite string_of_uint_to_uint.
  rewrite length_string_of_uint.
  pose proof (DecimalPos.Unsigned.to_uint_nonnil p).
  destruct (Pos.to_uint p); simpl; try done; lia.
Qed.

Lemma int_zfill_str (n : Z) : py.int (py.zfill 2 (py.str n)) = Ok n.
Proof.
  destruct (decide (n < 0)%Z) as [Hneg|Hpos].
  - destruct n as [|p|p]; try lia.
    unfold py.zfill. pose proof (length_str_neg p) as Hlen.
    destruct (2 <=? String.length (py.str (Z.neg p))) eqn:Hle;
      [apply int_str|]. apply Nat.leb_gt in Hle. lia.
  - destruct (decide (n < 10)%Z) as [Hsmall|Hlarge].
    + assert (n = 0 ∨ n = 1 ∨ n = 2 ∨ n = 3 ∨ n = 4 ∨ n = 5 ∨ n = 6
              ∨ n = 7 ∨ n = 8 ∨ n = 9)%Z as H by lia.
      repeat destruct H as [->|H]; try subst n; reflexivity.
    + rewrite zfill_str_large by lia. apply int_str.
Qed.

Lemma length_zfill_2 (s : string) : 2 ≤ String.length (py.zfill 2 s).
Proof.
  unfold py.zfill. destruct s as [|c [|c' s]]; simpl; try lia.
  destruct (py.is_sign c); simpl; lia.
Qed.

Lemma zfill_2_fixed (s : string) :
  2 ≤ String.length s → py.zfill 2 s = s.
Proof.
  intros Hlen. unfold py.zfill.
  destruct (2 <=? String.length s) eqn:Hle; [done|].
  apply Nat.leb_gt in Hle. lia.
Qed.

Lemma contains_hyphen_uint (d : Decimal.uint) :
  py.contains "-" (NilEmpty.string_of_uint d) = false.
Proof. induction d; simpl; try done; by rewrite decide_False. Qed.

Lemma contains_hyphen_zfill_str (n : Z) :
  (0 ≤ n)%Z → py.contains "-" (py.zfill 2 (py.str n)) = false.
Proof.
  intros Hn. destruct (decide (n < 10)%Z) as [Hsmall|Hlarge].
  - assert (n = 0 ∨ n = 1 ∨ n = 2 ∨ n = 3 ∨ n = 4 ∨ n = 5 ∨ n = 6
            ∨ n = 7 ∨ n = 8 ∨ n = 9)%Z as H by lia.
    repeat destruct H as [->|H]; try subst n; reflexivity.
  - rewrite zfill_str_large by lia. destruct n as [|p|p]; try lia.
    unfold py.str. simpl. rewrite string_of_uint_to_uint.
    apply contains_hyphen_uint.
Qed.

Lemma contains_false_not_elem (c : ascii) (s : string) :
  py.contains c s = false → c ∉ String.list_ascii_of_string s.
Proof.
  induction s as [|c' s IH]; simpl; [intros _; apply not_elem_of_nil|].
  case_decide; [done|]. intros Hs. rewrite not_elem_of_cons. auto.
Qed.

Lemma elem_of_lstrip (c : ascii) (l : list ascii) :
  c ∈ py.lstrip l → c ∈ l.
Proof.
  induction l as [|c' l IH]; simpl; [done|].
  destruct (py.is_space c'); [|done]. intros Hc. right. by apply IH.
Qed.

Lemma elem_of_strip (c : ascii) (l : list ascii) :
  c ∈ py.strip l → c ∈ l.
Proof.
  unfold py.strip. rewrite elem_of_reverse. intros Hc.
  apply elem_of_lstrip in Hc. rewrite elem_of_reverse in Hc.
  by apply elem_of_lstrip.
Qed.

Lemma more_digits_nonneg (l : list ascii) :
  ∀ acc us v, (0 ≤ acc)%Z → py.more_digits acc us l = Some v → (0 ≤ v)%Z.
Proof.
  induction l as [|c l IH]; intros acc us v Hacc; simpl.
  - destruct us; [done|]. by intros [= <-].
  - destruct (py.digit_of c) as [d|] eqn:Hd.
    + apply IH. unfold py.digit_of in Hd.
      destruct (_ && _); [|done]. injection Hd as <-. lia.
    + destruct us; [done|]. case_decide; [|done]. by apply IH.
Qed.

Lemma digits_nonneg (l : list ascii) (v : Z) :
  py.digits l = Some v → (0 ≤ v)%Z.
Proof.
  destruct l as [|c l]; simpl; [done|].
  destruct (py.digit_of c) as [d|] eqn:Hd; [|done].
  apply more_digits_nonneg. unfold py.digit_of in Hd.
  destruct (_ && _); [|done]. injection Hd as <-. lia.
Qed.

(** A bound without a hyphen is never negative. *)
Lemma int_nonneg_without_hyphen (s : string) (n : Z) :
  py.contains "-" s = false → py.int s = Ok n → (0 ≤ n)%Z.
Proof.
  intros Hs%contains_false_not_elem. unfold py.int.
  destruct (py.strip _) as [|c l] eqn:Hstrip; [done|].
  assert (c ≠ "-"%char) as Hc.
  { intros ->. apply Hs, elem_of_strip. rewrite Hstrip. by left. }
  rewrite decide_False by done. case_decide.
  - destruct (py.digits l) as [v|] eqn:Hv; [|done].
    intros [= <-]. by apply digits_nonneg in Hv.
  - destruct (py.digits (c :: l)) as [v|] eqn:Hv; [|done].
    intros [= <-]. by apply digits_nonneg in Hv.
Qed.

(** X1. The identifiers of an expanded range read back.  Each identifier
    the expander returns for [A-B] has two characters at least and is a
    decimal literal of its integer: [int] of the identifier at position [i]
    is [A + i].  So no two identifiers of one expansion are equal. *)
Theorem expanded_identifiers_read_back (sa sb : string) (a b : Z) :
  py.contains "-" sa = false →
  py.int sa = Ok a →
  py.int sb = Ok b →
  ∃ l, parse_lesson_arg (sa +:+ "-" +:+ sb) = Ok l
       ∧ NoDup l
       ∧ ∀ (i : nat) id, l !! i = Some id →
           py.int id = Ok (a + Z.of_nat i)%Z ∧ 2 ≤ String.length id.
Proof.
  intros Hsa Ha Hb. unfold parse_lesson_arg.
  change (sa +:+ "-" +:+ sb) with (sa +:+ String "-" sb).
  rewrite contains_app, split1_first, Ha, Hb by done. simpl.
  eexists. split; [reflexivity|]. split.
  - apply NoDup_fmap_2_strong; [|apply NoDup_seqZ].
    intros x y _ _ Hxy. apply (f_equal py.int) in Hxy.
    rewrite !int_zfill_str in Hxy. congruence.
  - intros i id Hi. apply list_lookup_fmap_Some in Hi as (n & -> & Hn).
    apply lookup_seqZ in Hn as [-> _].
    split; [apply int_zfill_str|apply length_zfill_2].
Qed.

Lemma expanded_identifiers_read_back_witness :
  py.contains "-" "8" = false
  ∧ py.int "8" = Ok 8%Z
  ∧ py.int "11" = Ok 11%Z
  ∧ ∃ l, parse_lesson_arg ("8" +:+ "-" +:+ "11") = Ok l
         ∧ NoDup l
         ∧ ∀ (i : nat) id, l !! i = Some id →
             py.int id = Ok (8 + Z.of_nat i)%Z ∧ 2 ≤ String.length id.
Proof.
  assert (H1 : py.contains "-" "8" = false) by reflexivity.
  assert (H2 : py.int "8" = Ok 8%Z) by reflexivity.
  assert (H3 : py.int "11" = Ok 11%Z) by reflexivity.
  exact (conj H1 (conj H2 (conj H3
           (expanded_identifiers_read_back "8" "11" 8 11 H1 H2 H3)))).
Defined.

(** X2. Expanding is idempotent on what it returns.  Every identifier of an
    expanded range, given back to the expander as a single value, is
    returned alone and unchanged: it has no hyphen (the lower bound of a
    range is never negative) and needs no further zero. *)
Theorem expanded_identifier_fixed (sa sb : string) (l : list string)
    (id : string) :
  py.contains "-" sa = false →
  parse_lesson_arg (sa +:+ "-" +:+ sb) = Ok l →
  id ∈ l →
  parse_lesson_arg id = Ok [id].
Proof.
  intros Hsa. unfold parse_lesson_arg at 1.
  change (sa +:+ "-" +:+ sb) with (sa +:+ String "-" sb).
  rewrite contains_app, split1_first by done.
  destruct (py.int sa) as [a|e] eqn:Ha; [|done].
  destruct (py.int sb) as [b|e] eqn:Hb; [|done]. simpl.
  intros [= <-] (n & -> & Hn)%list_elem_of_fmap.
  apply elem_of_seqZ in Hn.
  pose proof (int_nonneg_without_hyphen sa a Hsa Ha) as Hpos.
  unfold parse_lesson_arg.
  rewrite contains_hyphen_zfill_str by lia.
  by rewrite zfill_2_fixed by apply length_zfill_2.
Qed.

Lemma expanded_identifier_fixed_witness :
  py.contains "-" "8" = false
  ∧ parse_lesson_arg ("8" +:+ "-" +:+ "11") = Ok ["08"; "09"; "10"; "11"]
  ∧ "09" ∈ ["08"; "09"; "10"; "11"]
  ∧ parse_lesson_arg "09" = Ok ["09"].
Proof.
  assert (H1 : py.contains "-" "8" = false) by reflexivity.
  assert (H2 : parse_lesson_arg ("8" +:+ "-" +:+ "11")
               = Ok ["08"; "09"; "10"; "11"]) by reflexivity.
  assert (H3 : "09" ∈ ["08"; "09"; "10"; "11"]) by (right; left).
  exact (conj H1 (conj H2 (conj H3
           (expanded_identifier_fixed "8" "11" _ "09" H1 H2 H3)))).
Defined.

End identifiers.

(** ** The writer's counters and key set *)

Section writer_invariants.
Import VocabCSVWriter.





(** X5. Batching does not matter to the writer.  Once the file exists,
    writing several sequences one call after the other leaves the writer
    and the file exactly as one call on their concatenation does. *)
Theorem write_entries_concat (self : t) (f : csv.text)
    (batches : list (list (gmap string string))) :
  foldl (λ st es, write_entries st.1 st.2 es) (self, Some f) batches
  = write_entries self (Some f) (concat batches).
Proof. rewrite write_entries_batches. reflexivity. Qed.

End writer_invariants.

(** ** The run as a whole *)

Section run_facts.
Variable chain_invoke :
  prompt_template → string → nat → list vocab_item →
  result (list (gmap string string)).
Variables (a : args) (template : prompt_template) (w : world).

Lemma length_succeeded_results (bs : list (list (gmap string pyval))) :
  ∀ call,
  length (succeeded_results chain_invoke template (model a) call bs)
  = succeeded_items chain_invoke template (model a) call bs.
Proof.
  induction bs as [|batch bs IH]; intros call; simpl; [done|].
  rewrite length_app, IH.
  by destruct (process_vocab_batch _ _ _ _ _).
Qed.


(** With batch size zero no lesson has a batch. *)
Lemma lesson_batches_zero (lesson_num : string) :
  lesson_batches w 0 lesson_num = [].
Proof.
  unfold lesson_batches. destruct (load_lesson_vocab w lesson_num); done.
Qed.

Lemma run_batches_zero (lesson_nums : list string) :
  run_batches w 0 lesson_nums = [].
Proof.
  unfold run_batches. induction lesson_nums as [|l ls IH]; csimpl; [done|].
  by rewrite lesson_batches_zero, IH.
Qed.




(** The counter of rows seen. *)
Lemma lesson_loop_items (lesson_nums : list string) :
  batch_size a ≠ 0%Z →
  ∀ st,
  grand_total_items (lesson_loop chain_invoke a template w st lesson_nums).1.1
  = grand_total_items st + sum_list (lesson_rows w <$> lesson_nums).
Proof.
  intros Hb. induction lesson_nums as [|lesson_num rest IH]; intros st; csimpl.
  - lia.
  - assert (Hstep :
      (process_lesson chain_invoke a template w st lesson_num).2 = None
      ∧ grand_total_items
          (process_lesson chain_invoke a template w st lesson_num).1.1
        = grand_total_items st + lesson_rows w lesson_num).
    { unfold process_lesson, lesson_rows, load_lesson_vocab.
      destruct (PROCESSED_DIR w !! lesson_file lesson_num) as [f|]; simpl.
      - unfold total_batches, py.floordiv. case_decide; [done|]. simpl.
        match goal with |- context [batch_loop _ _ _ ?i ?t ?s ?n] =>
          destruct (batch_loop_counts chain_invoke a template i t n s)
            as (_ & Hi & _) end.
        by rewrite Hi.
      - split; [done|lia]. }
    destruct Hstep as [He Hi].
    destruct (process_lesson chain_invoke a template w st lesson_num)
      as [[st' out] e]. simpl in He, Hi. subst e.
    specialize (IH st').
    destruct (lesson_loop chain_invoke a template w st' rest)
      as [[st'' out'] e']. simpl in *. lia.
Qed.






(** Batch size zero: nothing is requested, nothing is written. *)
Lemma lesson_loop_zero (lesson_nums : list string) :
  batch_size a = 0%Z →
  ∀ st,
  let r := lesson_loop chain_invoke a template w st lesson_nums in
  calls r.1.1 = calls st
  ∧ grand_total_processed r.1.1 = grand_total_processed st
  ∧ output r.1.1 = output st
  ∧ csv_writer r.1.1 = csv_writer st
  ∧ (r.2 = Some ZeroDivisionError
     ∧ Exists (λ l, is_Some (PROCESSED_DIR w !! lesson_file l)) lesson_nums
     ∨ r.2 = None
       ∧ Forall (λ l, PROCESSED_DIR w !! lesson_file l = None) lesson_nums).
Proof.
  intros Hb. induction lesson_nums as [|lesson_num rest IH]; intros st; simpl.
  - repeat split; try done. right. by split.
  - unfold process_lesson, load_lesson_vocab.
    destruct (PROCESSED_DIR w !! lesson_file lesson_num) as [f|] eqn:Hf;
      simpl.
    + unfold total_batches, py.floordiv. rewrite Hb. simpl.
      repeat split; try done. left. split; [done|]. left. by rewrite Hf.
    + destruct (IH st) as (Hc & Hp & Ho & Hw & He).
      destruct (lesson_loop chain_invoke a template w st rest)
        as [[st'' out'] e'']. simpl in *.
      repeat split; try done.
      destruct He as [[-> Hex]|[-> Hall]].
      * left. split; [done|]. by right.
      * right. split; [done|]. by constructor.
Qed.

End run_facts.

Section run_properties.
Variable chain_invoke :
  prompt_template → string → nat → list vocab_item →
  result (list (gmap string string)).
Variables (a : args) (w : world).






(** X9. Rows seen.  In a run with a key, a lesson argument that parses, a
    schema that binds and a batch size other than zero, the counter of
    vocabulary items ends as the number of rows of the lessons that have a
    file; the summary line counts the lessons asked for, with or without a
    file. *)
Theorem run_counts_rows_of_present_lessons (template : prompt_template)
    (lesson_nums : list string) :
  py.falsy (OPENAI_API_KEY w) = false →
  parse_lesson_arg (lesson a) = Ok lesson_nums →
  (schema <- load_schema w ;; create_batch_prompt_template schema)
  = Ok template →
  batch_size a ≠ 0%Z →
  let r := main chain_invoke a w in
  grand_total_items r.1.1 = sum_list (lesson_rows w <$> lesson_nums)
  ∧ Summary (grand_total_processed r.1.1)
      (sum_list (lesson_rows w <$> lesson_nums)) (length lesson_nums)
    ∈ r.1.2.
Proof.
  intros Hkey Hparse Hschema Hb. unfold main.
  rewrite Hkey, Hparse, Hschema.
  assert (∃ writer out,
            (if dry_run a then Ok (None, OUTPUT_CSV w)
             else r <- VocabCSVWriter.__init__ (OUTPUT_CSV w) ;;
                  Ok (Some r.1, r.2)) = Ok (writer, out))
    as (writer & out & ->).
  { destruct (dry_run a); [by eexists _, _|].
    destruct (init_spec (OUTPUT_CSV w)) as (w0 & -> & _). by eexists _, _. }
  pose proof (lesson_loop_items chain_invoke a template w lesson_nums Hb
                (start out writer)) as Hi.
  destruct (lesson_loop_counts chain_invoke a template w lesson_nums Hb
              (start out writer)) as (He & _).
  destruct (lesson_loop chain_invoke a template w (start out writer)
              lesson_nums) as [[st printed] e].
  simpl in He, Hi. subst e. simpl. split; [done|]. rewrite <- Hi.
  rewrite !elem_of_cons, !elem_of_app, elem_of_cons. auto.
Qed.

End run_properties.

Section run_edges.
Variable chain_invoke :
  prompt_template → string → nat → list vocab_item →
  result (list (gmap string string)).

(** *** The flag of the dry run and the counters *)







(** *** How a run can end *)


(** X12. Batch size zero.  With a key, a lesson argument that parses and a
    schema that binds, a run with batch size zero requests nothing and
    processes nothing; beyond the header that constructing the writer may
    write, the output file is untouched.  The run ends with
    ZeroDivisionError when one of the lessons has a file, at the first such
    lesson, and without exception when none has. *)
Theorem zero_batch_size_requests_nothing (a : args) (w : world)
    (template : prompt_template) (lesson_nums : list string) :
  py.falsy (OPENAI_API_KEY w) = false →
  parse_lesson_arg (lesson a) = Ok lesson_nums →
  (schema <- load_schema w ;; create_batch_prompt_template schema)
  = Ok template →
  batch_size a = 0%Z →
  let r := main chain_invoke a w in
  calls r.1.1 = 0
  ∧ grand_total_processed r.1.1 = 0
  ∧ output r.1.1
    = (if dry_run a then OUTPUT_CSV w
       else VocabCSVWriter._ensure_header (OUTPUT_CSV w))
  ∧ (r.2 = Some ZeroDivisionError
     ∧ Exists (λ l, is_Some (PROCESSED_DIR w !! lesson_file l)) lesson_nums
     ∨ r.2 = None
       ∧ Forall (λ l, PROCESSED_DIR w !! lesson_file l = None) lesson_nums).
Proof.
  intros Hkey Hparse Hschema Hb. unfold main.
  rewrite Hkey, Hparse, Hschema.
  assert (∃ writer,
            (if dry_run a then Ok (None, OUTPUT_CSV w)
             else r <- VocabCSVWriter.__init__ (OUTPUT_CSV w) ;;
                  Ok (Some r.1, r.2))
            = Ok (writer, if dry_run a then OUTPUT_CSV w
                          else VocabCSVWriter._ensure_header (OUTPUT_CSV w)))
    as (writer & ->).
  { destruct (dry_run a); [by eexists|].
    destruct (init_spec (OUTPUT_CSV w)) as (w0 & -> & _). by eexists. }
  match goal with |- context [lesson_loop _ _ _ _ ?s _] =>
    destruct (lesson_loop_zero chain_invoke a template w lesson_nums Hb s)
      as (Hc & Hp & Ho & _ & He) end.
  destruct (lesson_loop chain_invoke a template w _ lesson_nums)
    as [[st printed] e]. simpl in *.
  destruct He as [[-> Hex]|[-> Hall]]; simpl; repeat split; try done.
  - by left.
  - by right.
Qed.

End run_edges.





Lemma run_counts_rows_of_present_lessons_witness :
  py.falsy (OPENAI_API_KEY sample_world) = false
  ∧ parse_lesson_arg (lesson sample_args) = Ok ["01"; "02"]
  ∧ (schema <- load_schema sample_world ;;
     create_batch_prompt_template schema) = Ok sample_template
  ∧ batch_size sample_args ≠ 0%Z
  ∧ grand_total_items (main sample_chain sample_args sample_world).1.1
    = sum_list (lesson_rows sample_world <$> ["01"; "02"])
  ∧ Summary
      (grand_total_processed (main sample_chain sample_args sample_world).1.1)
      (sum_list (lesson_rows sample_world <$> ["01"; "02"]))
      (length ["01"; "02"])
    ∈ (main sample_chain sample_args sample_world).1.2.
Proof.
  assert (H1 : py.falsy (OPENAI_API_KEY sample_world) = false) by reflexivity.
  assert (H2 : parse_lesson_arg (lesson sample_args) = Ok ["01"; "02"])
    by reflexivity.
  assert (H3 : (schema <- load_schema sample_world ;;
                create_batch_prompt_template schema) = Ok sample_template)
    by (vm_compute; reflexivity).
  assert (H4 : batch_size sample_args ≠ 0%Z) by (simpl; lia).
  exact (conj H1 (conj H2 (conj H3 (conj H4
           (run_counts_rows_of_present_lessons sample_chain sample_args
              sample_world sample_template ["01"; "02"] H1 H2 H3 H4))))).
Defined.

Lemma zero_batch_size_requests_nothing_witness :
  py.falsy (OPENAI_API_KEY sample_world) = false
  ∧ parse_lesson_arg (lesson sample_zero_args) = Ok ["01"; "02"]
  ∧ (schema <- load_schema sample_world ;;
     create_batch_prompt_template schema) = Ok sample_template
  ∧ batch_size sample_zero_args = 0%Z
  ∧ calls (main sample_chain sample_zero_args sample_world).1.1 = 0
  ∧ grand_total_processed
      (main sample_chain sample_zero_args sample_world).1.1 = 0.
Proof.
  assert (H1 : py.falsy (OPENAI_API_KEY sample_world) = false) by reflexivity.
  assert (H2 : parse_lesson_arg (lesson sample_zero_args) = Ok ["01"; "02"])
    by reflexivity.
  assert (H3 : (schema <- load_schema sample_world ;;
                create_batch_prompt_template schema) = Ok sample_template)
    by (vm_compute; reflexivity).
  assert (H4 : batch_size sample_zero_args = 0%Z) by reflexivity.
  destruct (zero_batch_size_requests_nothing sample_chain sample_zero_args
              sample_world sample_template ["01"; "02"] H1 H2 H3 H4)
    as (Hc & Hp & _).
  exact (conj H1 (conj H2 (conj H3 (conj H4 (conj Hc Hp))))).
Defined.

(** ** Batch sizes below zero *)

(** X13. A negative batch size sends no row.  For a batch size below zero
    the loop forms no batch at all when the lesson has two rows or more;
    the batches it forms for a lesson of one row or none are all empty.  So
    no row of any lesson reaches the chain, and no error is raised. *)
Theorem negative_batch_size_sends_no_row {A} (vocab_items : list A)
    (batch_size : Z) :
  (batch_size < 0)%Z →
  ∃ bs, batches vocab_items batch_size = Ok bs
        ∧ Forall (λ batch, batch = []) bs
        ∧ (2 ≤ length vocab_items → bs = []).
Proof.
  intros Hb. unfold batches, total_batches, py.floordiv, py.range.
  case_decide; [lia|]. simpl. eexists. split; [reflexivity|].
  set (n := Z.of_nat (length vocab_items)).
  set (t := ((n + batch_size - 1) `div` batch_size)%Z).
  assert (Ht : (1 ≤ t → n ≤ 1)%Z).
  { pose proof (Z.div_mod (n + batch_size - 1) batch_size ltac:(lia)) as Hdm.
    pose proof (Z.mod_neg_bound (n + batch_size - 1) batch_size Hb) as Hm.
    fold t in Hdm. nia. }
  split.
  - apply Forall_fmap, Forall_forall. intros i Hi%elem_of_seqZ. simpl.
    unfold batch_at, py.slice.
    assert (Hstop : py.slice_index (length vocab_items)
                      (Z.min (i * batch_size + batch_size) n) = 0).
    { unfold py.slice_index. fold n.
      assert (i * batch_size + batch_size < 0)%Z by nia.
      case_decide; lia. }
    fold n. by rewrite Hstop.
  - intros Hlen. rewrite seqZ_nil; [done|]. subst n. lia.
Qed.

Lemma negative_batch_size_sends_no_row_witness :
  (-2 < 0)%Z
  ∧ ∃ bs, batches ["ほん"] (-2) = Ok bs
          ∧ Forall (λ batch, batch = []) bs
          ∧ (2 ≤ length ["ほん"] → bs = []).
Proof.
  assert (H : (-2 < 0)%Z) by lia.
  exact (conj H (negative_batch_size_sends_no_row ["ほん"] (-2) H)).
Defined.

(** ** From the rows of a lesson to the items of a request *)

(** The four cells the request uses, for a record of any length. *)
Lemma genki_cells (r : list string) :
  let d := csv.row_dict genki_header r in
  csv.get d "単語" = r !! 1
  ∧ csv.get d "漢字表記" = r !! 2
  ∧ csv.get d "品詞" = r !! 3
  ∧ csv.get d "英訳" = r !! 4.
Proof.
  unfold csv.get, csv.row_dict, genki_header.
  destruct r as [|c0 [|c1 [|c2 [|c3 [|c4 [|c5 r]]]]]];
    cbn [zip zip_with foldl length drop fst snd lookup list_lookup];
    rewrite ?drop_nil; cbn [foldl]; simplify_map_eq; by repeat split.
Qed.

(** X14. What a request carries.  For a lesson file under the header
    No., 単語, 漢字表記, 品詞, 英訳, 課数 the items of a request are made from
    the records that are not blank, one item per record and in their order,
    from the second to the fifth cell.  The kanji form is the third cell
    unless that cell is missing or empty, and then it is the second; a cell
    the record is too short to have is [None]. *)
Theorem lesson_rows_to_request_items (w : world) (lesson_num : string)
    (rows : list (list string)) :
  PROCESSED_DIR w !! lesson_file lesson_num = Some (genki_header :: rows) →
  ∃ items,
    load_lesson_vocab w lesson_num = Ok items
    ∧ vocab_list items
      = (λ r : list string,
           {| word_kana := r !! 1;
              kanji_form := match r !! 2 with
                            | Some k => if decide (k = "") then r !! 1
                                        else Some k
                            | None => r !! 1
                            end;
              pos_japanese := r !! 3;
              english := r !! 4 |})
        <$> filter (λ r, r ≠ []) rows.
Proof.
  intros Hfile. unfold load_lesson_vocab. rewrite Hfile.
  eexists. split; [reflexivity|]. unfold vocab_list. simpl.
  rewrite <- list_fmap_compose. apply list_fmap_ext. intros _ r _. simpl.
  destruct (genki_cells r) as (-> & -> & -> & ->). unfold py.or.
  by destruct (r !! 2).
Qed.

Lemma lesson_rows_to_request_items_witness :
  PROCESSED_DIR sample_world !! lesson_file "01"
  = Some (genki_header :: tail lesson_01)
  ∧ ∃ items,
      load_lesson_vocab sample_world "01" = Ok items
      ∧ vocab_list items
        = (λ r : list string,
             {| word_kana := r !! 1;
                kanji_form := match r !! 2 with
                              | Some k => if decide (k = "") then r !! 1
                                          else Some k
                              | None => r !! 1
                              end;
                pos_japanese := r !! 3;
                english := r !! 4 |})
          <$> filter (λ r, r ≠ []) (tail lesson_01).
Proof.
  assert (H : PROCESSED_DIR sample_world !! lesson_file "01"
              = Some (genki_header :: tail lesson_01))
    by (vm_compute; reflexivity).
  exact (conj H (lesson_rows_to_request_items sample_world "01" _ H)).
Defined.

(** ** A descending range, run *)

(** X15. A descending range runs to the end and does nothing.  When the
    lesson argument is [A-B] with numeric bounds and A > B, a run with a key
    and a schema that binds reads no lesson and requests nothing, prints
    the summary with three zeros and ends without exception; unless it is a
    dry run it still constructs the writer, so the output file is left with
    its header when it was absent or empty. *)
Theorem descending_range_run
    (chain_invoke : prompt_template → string → nat → list vocab_item →
                    result (list (gmap string string)))
    (a : args) (w : world) (template : prompt_template)
    (sa sb : string) (lo hi : Z) :
  lesson a = sa +:+ "-" +:+ sb →
  py.contains "-" sa = false →
  py.int sa = Ok lo → py.int sb = Ok hi → (hi < lo)%Z →
  py.falsy (OPENAI_API_KEY w) = false →
  (schema <- load_schema w ;; create_batch_prompt_template schema)
  = Ok template →
  let r := main chain_invoke a w in
  r.2 = None
  ∧ counters r.1.1 = (0, 0, 0)
  ∧ output r.1.1
    = (if dry_run a then OUTPUT_CSV w
       else VocabCSVWriter._ensure_header (OUTPUT_CSV w))
  ∧ r.1.2 = [Processing_lessons []; Loading_schema; Summary 0 0 0]
            ++ (if dry_run a then [] else [Writer_summary 0 0]) ++ [Done].
Proof.
  intros Hl Hsa Hlo Hhi Hlt Hkey Hschema.
  assert (Hparse : parse_lesson_arg (lesson a) = Ok []).
  { rewrite Hl. unfold parse_lesson_arg.
    change (sa +:+ "-" +:+ sb) with (sa +:+ String "-" sb).
    rewrite contains_app, split1_first, Hlo, Hhi by done. simpl.
    unfold py.range. by rewrite seqZ_nil by lia. }
  unfold main. rewrite Hkey, Hparse, Hschema.
  destruct (dry_run a); simpl; [done|].
  destruct (init_spec (OUTPUT_CSV w)) as (w0 & -> & _ & Hadd & Hskip).
  simpl. by rewrite Hadd, Hskip.
Qed.

Lemma descending_range_run_witness :
  lesson sample_descending_args = "5" +:+ "-" +:+ "3"
  ∧ py.contains "-" "5" = false
  ∧ py.int "5" = Ok 5%Z ∧ py.int "3" = Ok 3%Z ∧ (3 < 5)%Z
  ∧ py.falsy (OPENAI_API_KEY sample_world) = false
  ∧ (schema <- load_schema sample_world ;;
     create_batch_prompt_template schema) = Ok sample_template
  ∧ (main sample_chain sample_descending_args sample_world).2 = None
  ∧ counters (main sample_chain sample_descending_args sample_world).1.1
    = (0, 0, 0).
Proof.
  assert (H1 : lesson sample_descending_args = "5" +:+ "-" +:+ "3")
    by reflexivity.
  assert (H2 : py.contains "-" "5" = false) by reflexivity.
  assert (H3 : py.int "5" = Ok 5%Z) by reflexivity.
  assert (H4 : py.int "3" = Ok 3%Z) by reflexivity.
  assert (H5 : (3 < 5)%Z) by lia.
  assert (H6 : py.falsy (OPENAI_API_KEY sample_world) = false)
    by reflexivity.
  assert (H7 : (schema <- load_schema sample_world ;;
                create_batch_prompt_template schema) = Ok sample_template)
    by (vm_compute; reflexivity).
  destruct (descending_range_run sample_chain sample_descending_args
              sample_world sample_template "5" "3" 5 3 H1 H2 H3 H4 H5 H6 H7)
    as (He & Hc & _).
  exact (conj H1 (conj H2 (conj H3 (conj H4 (conj H5 (conj H6 (conj H7
           (conj He Hc)))))))).
Defined.

(** * Properties of split_genki.py *)

Section split_genki_facts.
Import split_genki.
Variable decimal : N → option N.
Variable limit : nat.

Lemma lit_app (s1 s2 : string) : lit (s1 +:+ s2) = lit s1 ++ lit s2.
Proof.
  unfold lit. induction s1 as [|c s1 IH]; csimpl; [done|].
  by rewrite IH.
Qed.

Lemma length_lit (s : string) : length (lit s) = String.length s.
Proof.
  unfold lit. induction s as [|c s IH]; csimpl; [done|]. by rewrite IH.
Qed.

Lemma lstrip_app_nonspace (p : list N) (c : N) (rest : list N) :
  isspace c = false → lstrip (p ++ c :: rest) = lstrip p ++ c :: rest.
Proof.
  intros Hc. induction p as [|c' p IH]; simpl.
  - by rewrite Hc.
  - by destruct (isspace c').
Qed.

(** [strip] when a character that is no space is known. *)
Lemma strip_around (p : list N) (c : N) (rest : list N) :
  isspace c = false →
  strip (p ++ c :: rest) = lstrip p ++ c :: reverse (lstrip (reverse rest)).
Proof.
  intros Hc. unfold strip. rewrite lstrip_app_nonspace by done.
  rewrite reverse_app, reverse_cons, <- app_assoc. simpl.
  rewrite lstrip_app_nonspace by done.
  by rewrite reverse_app, reverse_cons, !reverse_involutive, <- app_assoc.
Qed.

Lemma lstrip_suffix (s : list N) : lstrip s `suffix_of` s.
Proof.
  induction s as [|c s IH]; simpl; [done|].
  destruct (isspace c); [by apply suffix_cons_r|done].
Qed.

Lemma rstrip_prefix (s : list N) : reverse (lstrip (reverse s)) `prefix_of` s.
Proof.
  destruct (lstrip_suffix (reverse s)) as [k Hk].
  exists (reverse k). apply (inj reverse).
  by rewrite reverse_app, !reverse_involutive.
Qed.

Lemma strip_nonempty (s : list N) (c : N) :
  c ∈ s → isspace c = false → strip s ≠ [].
Proof.
  intros (p & rest & ->)%list_elem_of_split Hc.
  rewrite strip_around by done. by destruct (lstrip p).
Qed.

Lemma before_comma_app (p rest : list N) :
  44%N ∉ p → before_comma (p ++ rest) = p ++ before_comma rest.
Proof.
  induction p as [|c p IH]; simpl; [done|].
  rewrite not_elem_of_cons. intros [Hc Hp].
  rewrite decide_False by done. by rewrite IH.
Qed.

Lemma before_comma_prefix (s : list N) : before_comma s `prefix_of` s.
Proof.
  induction s as [|c s IH]; simpl; [done|].
  case_decide; [apply prefix_nil|by apply prefix_cons].
Qed.

Lemma no_leading_digit_prefix (t t' : list N) :
  t' `prefix_of` t → no_leading_digit decimal t →
  no_leading_digit decimal t'.
Proof. intros [k ->]. by destruct t'. Qed.

Lemma rstrip_cons_nonspace (c : N) (rest : list N) :
  isspace c = false →
  reverse (lstrip (reverse (c :: rest)))
  = c :: reverse (lstrip (reverse rest)).
Proof.
  intros Hc. pose proof (strip_around [] c rest Hc) as H.
  unfold strip in H. simpl in H. by rewrite Hc in H.
Qed.

Lemma rstrip_app_nonspace (ds t : list N) :
  Forall (λ c, isspace c = false) ds →
  reverse (lstrip (reverse (ds ++ t)))
  = ds ++ reverse (lstrip (reverse t)).
Proof.
  induction 1 as [|c ds Hc _ IH]; simpl; [done|].
  by rewrite rstrip_cons_nonspace, IH.
Qed.

(** The digits [str] writes. *)
Lemma lit_uint_digits (d : Decimal.uint) :
  Forall (λ c, 48 ≤ c ≤ 57)%N (lit (NilEmpty.string_of_uint d)).
Proof. induction d; simpl; constructor; try done; lia. Qed.

Lemma lit_str_digits (num : N) :
  Forall (λ c, 48 ≤ c ≤ 57)%N (lit (py.str (Z.of_N num)))
  ∧ lit (py.str (Z.of_N num)) ≠ [].
Proof.
  destruct num as [|p]; simpl.
  - split; [|done]. constructor; [done|constructor].
  - unfold py.str. simpl. rewrite string_of_uint_to_uint.
    split; [apply lit_uint_digits|].
    pose proof (DecimalPos.Unsigned.to_uint_nonnil p).
    by destruct (Pos.to_uint p).
Qed.

Lemma format_02d_digits (num : N) :
  Forall (λ c, 48 ≤ c ≤ 57)%N (format_02d num) ∧ 2 ≤ length (format_02d num).
Proof.
  unfold format_02d. destruct (lit_str_digits num) as [Hd Hne]. split.
  - apply Forall_app. split; [|done].
    apply Forall_replicate. lia.
  - rewrite length_app, length_replicate. lia.
Qed.

Section ascii_digits.
Hypothesis decimal_ascii : ∀ c, (48 ≤ c ≤ 57)%N → decimal c = Some (c - 48)%N.

Lemma int_digits_uint (d : Decimal.uint) :
  ∀ acc,
  Z.of_N (foldl (λ acc c, 10 * acc + default 0 (decimal c))%N acc
            (lit (NilEmpty.string_of_uint d)))
  = uint_value (Z.of_N acc) d.
Proof.
  induction d; intros acc; simpl; try done;
    rewrite decimal_ascii by lia; simpl; rewrite IHd; f_equal; lia.
Qed.

Lemma digits_value_str (num : N) :
  digits_value decimal (lit (py.str (Z.of_N num))) = num.
Proof.
  unfold digits_value. destruct num as [|p]; simpl.
  - by rewrite decimal_ascii by lia.
  - unfold py.str. simpl. rewrite string_of_uint_to_uint.
    apply (inj Z.of_N). rewrite int_digits_uint. simpl.
    rewrite <- uint_value_of_uint, DecimalPos.Unsigned.of_to. done.
Qed.

Lemma span_digits_app (ds t : list N) :
  Forall (λ c, 48 ≤ c ≤ 57)%N ds → no_leading_digit decimal t →
  span_digits decimal (ds ++ t) = (ds, t).
Proof.
  intros Hds Ht. induction Hds as [|c ds Hc _ IH]; simpl.
  - destruct t as [|c t]; simpl; [done|]. simpl in Ht. by rewrite Ht.
  - by rewrite decimal_ascii, IH.
Qed.

End ascii_digits.

Lemma search_skip (p s : list N) :
  76%N ∉ p → search_L_digits decimal (p ++ s) = search_L_digits decimal s.
Proof.
  induction p as [|c p IH]; simpl; [done|].
  rewrite not_elem_of_cons. intros [Hc Hp].
  rewrite decide_False by done. by apply IH.
Qed.

Lemma span_digits_length (s : list N) :
  length (span_digits decimal s).1 ≤ length s.
Proof.
  induction s as [|c s IH]; simpl; [done|].
  destruct (decimal c); simpl; lia.
Qed.

Lemma search_L_digits_length (s ds : list N) :
  search_L_digits decimal s = Some ds → length ds < length s.
Proof.
  induction s as [|c s IH]; simpl; [done|].
  pose proof (span_digits_length s) as Hspan.
  case_decide.
  - destruct (span_digits decimal s).1 as [|d ds'] eqn:Hd.
    + intros Hs. apply IH in Hs. lia.
    + intros [= <-]. lia.
  - intros Hs. apply IH in Hs. lia.
Qed.

Lemma strip_length (s : list N) : length (strip s) ≤ length s.
Proof.
  unfold strip.
  pose proof (prefix_length _ _ (rstrip_prefix (lstrip s))).
  pose proof (suffix_length _ _ (lstrip_suffix s)). lia.
Qed.

Lemma int_digits_cases (ds : list N) :
  int_digits decimal limit ds = Returns (digits_value decimal ds)
  ∨ int_digits decimal limit ds = Raises (ValueError (length ds))
    ∧ 640 < length ds ∧ 0 < limit < length ds.
Proof.
  unfold int_digits. case_bool_decide; [right|by left].
  split; [done|lia].
Qed.

(** X16. A key, a warning or ValueError.  Whatever the field, the table of
    decimal digits and the limit of [int], [extract_first_lesson] returns
    either a key and no warning, or no key and one of its two warnings, or
    it raises ValueError.  A key is the letter L followed by two or more
    ASCII digits.  It raises only when a limit is set and the field holds
    a run of more than 640 digits that is longer than the limit. *)
Theorem lesson_key_or_warning (lesson_field : list N) :
  match extract_first_lesson decimal limit lesson_field with
  | Returns r =>
      (∃ ds, r = (Some (76%N :: ds), None)
             ∧ 2 ≤ length ds ∧ Forall (λ c, 48 ≤ c ≤ 57)%N ds)
      ∨ (r.1 = None
         ∧ (r.2 = Some (lit "empty lesson field")
            ∨ r.2 = Some (lit "unrecognized format: '" ++ lesson_field
                          ++ lit "'")))
  | Raises e =>
      ∃ digits, e = ValueError digits
                ∧ 640 < digits < length lesson_field
                ∧ 0 < limit < digits
  end.
Proof.
  unfold extract_first_lesson.
  destruct (_ || _); [right; split; [done|by left]|]. cbv zeta.
  destruct (search_L_digits _ _) as [ds|] eqn:Hs.
  - apply search_L_digits_length in Hs.
    pose proof (strip_length (before_comma lesson_field)) as Hstrip.
    pose proof (prefix_length _ _ (before_comma_prefix lesson_field)).
    destruct (int_digits_cases ds) as [->|(-> & Hlen & Hlim)].
    + left. exists (format_02d (digits_value decimal ds)).
      destruct (format_02d_digits (digits_value decimal ds)) as [Hd Hl].
      by repeat split.
    + exists (length ds). split; [done|]. lia.
  - case_bool_decide.
    + left. exists (format_02d 0).
      destruct (format_02d_digits 0) as [Hd Hl]. by repeat split.
    + right. split; [done|by right].
Qed.

(** X17. Only the first lesson counts.  The key depends on the text before
    the first comma only: whatever follows the comma, the call returns the
    key that the text before it gives alone, or raises what that text
    raises alone. *)
Theorem key_from_first_lesson_only (x y : list N) :
  44%N ∉ x →
  match extract_first_lesson decimal limit (x ++ 44%N :: y),
        extract_first_lesson decimal limit x with
  | Returns r, Returns r' => r.1 = r'.1
  | Raises e, Raises e' => e = e'
  | _, _ => False
  end.
Proof.
  intros Hx. unfold extract_first_lesson.
  assert (Hne : strip (x ++ 44%N :: y) ≠ []).
  { apply (strip_nonempty _ 44%N); [|done].
    apply elem_of_app. right. by left. }
  rewrite (bool_decide_eq_false_2 (strip (x ++ 44%N :: y) = [])) by done.
  rewrite (bool_decide_eq_false_2 (x ++ 44%N :: y = []))
    by (by destruct x).
  rewrite before_comma_app by done. cbn [before_comma orb].
  rewrite decide_True, app_nil_r by done.
  pose proof (before_comma_app x [] Hx) as Hbx.
  rewrite !app_nil_r in Hbx. cbn [before_comma] in Hbx. rewrite Hbx.
  destruct (decide (strip x = [])) as [Hs|Hs].
  - rewrite Hs. rewrite (bool_decide_eq_true_2 ([] = [])) by done.
    rewrite orb_true_r. cbn [search_L_digits fst].
    by rewrite (bool_decide_eq_false_2 (71%N ∈ []))
      by apply not_elem_of_nil.
  - rewrite (bool_decide_eq_false_2 (strip x = [])) by done.
    rewrite (bool_decide_eq_false_2 (x = []))
      by (intros ->; by apply Hs). cbn [orb].
    destruct (search_L_digits decimal (strip x)) as [ds|].
    + by destruct (int_digits decimal limit ds).
    + by case_bool_decide.
Qed.

Lemma isspace_digit (c : N) : (48 ≤ c ≤ 57)%N → isspace c = false.
Proof.
  intros Hc.
  assert (c = 48 ∨ c = 49 ∨ c = 50 ∨ c = 51 ∨ c = 52 ∨ c = 53 ∨ c = 54
          ∨ c = 55 ∨ c = 56 ∨ c = 57)%N as H by lia.
  repeat destruct H as [->|H]; try subst c; reflexivity.
Qed.

Lemma format_02d_zfill (num : N) :
  format_02d num = lit (py.zfill 2 (py.str (Z.of_N num))).
Proof.
  destruct (decide (num < 10)%N) as [Hsmall|Hlarge].
  - assert (num = 0 ∨ num = 1 ∨ num = 2 ∨ num = 3 ∨ num = 4 ∨ num = 5
            ∨ num = 6 ∨ num = 7 ∨ num = 8 ∨ num = 9)%N as H by lia.
    repeat destruct H as [->|H]; try subst num; reflexivity.
  - rewrite zfill_str_large by lia. unfold format_02d.
    pose proof (length_str_ge_10 (Z.of_N num) ltac:(lia)) as Hlen.
    rewrite length_lit. by replace (2 - _) with 0 by lia.
Qed.

(** X18. A numbered lesson field.  When ASCII digits count as decimal
    digits, a field made of a text without L or comma, then L and the
    decimal writing of a number of at most 640 digits, then anything that
    does not start with a digit, gives the key L followed by the number
    filled with zeros to two digits, and no warning.  The file [main]
    names after that key is the file process_lesson.py looks for under the
    identifier of that number. *)
Theorem numbered_lesson_field (p t : list N) (num : N) :
  (∀ c, (48 ≤ c ≤ 57)%N → decimal c = Some (c - 48)%N) →
  76%N ∉ p → 44%N ∉ p → no_leading_digit decimal t →
  String.length (py.str (Z.of_N num)) ≤ 640 →
  extract_first_lesson decimal limit
    (p ++ lit "L" ++ lit (py.str (Z.of_N num)) ++ t)
  = Returns (Some (lit "L" ++ format_02d num), None)
  ∧ lesson_file_name (lit "L" ++ format_02d num)
    = lit (lesson_file (py.zfill 2 (py.str (Z.of_N num)))).
Proof.
  intros Hdec HL Hcomma Ht Hlen.
  destruct (lit_str_digits num) as [Hds Hne].
  pose proof (digits_value_str Hdec num) as Hint.
  rewrite <- length_lit in Hlen.
  set (ds := lit (py.str (Z.of_N num))) in *.
  change (lit "L") with [76%N]. split.
  - assert (Hspace : Forall (λ c, isspace c = false) ds).
    { eapply Forall_impl; [exact Hds|]. apply isspace_digit. }
    assert (Hnc : 44%N ∉ ds).
    { intros Hin. rewrite Forall_forall in Hds. apply Hds in Hin. lia. }
    unfold extract_first_lesson.
    assert (Hfield : strip (p ++ [76%N] ++ ds ++ t) ≠ []).
    { apply (strip_nonempty _ 76%N); [|done].
      apply elem_of_app. right. by left. }
    rewrite (bool_decide_eq_false_2 (strip _ = [])) by done.
    rewrite (bool_decide_eq_false_2 (p ++ [76%N] ++ ds ++ t = []))
      by (by destruct p).
    cbn [orb].
    rewrite before_comma_app by done. cbn [app before_comma].
    rewrite decide_False by done. rewrite before_comma_app by done.
    rewrite strip_around by done.
    rewrite rstrip_app_nonspace by done.
    rewrite search_skip.
    2: { intros Hin. apply HL. eapply elem_of_suffix; [exact Hin|].
         apply lstrip_suffix. }
    cbn [search_L_digits]. rewrite decide_True by done.
    rewrite (span_digits_app Hdec).
    + cbn [fst]. clearbody ds. destruct ds as [|d ds']; [done|].
      destruct (int_digits_cases (d :: ds')) as [->|(_ & Hover & _)];
        [by rewrite Hint|lia].
    + done.
    + eapply no_leading_digit_prefix; [apply rstrip_prefix|].
      eapply no_leading_digit_prefix; [apply before_comma_prefix|done].
  - unfold lesson_file_name, lesson_file.
    rewrite format_02d_zfill, !lit_app.
    change (lit "genki_vocab_L") with (lit "genki_vocab_" ++ [76%N]).
    by rewrite <- !app_assoc.
Qed.

End split_genki_facts.

Section split_genki_files.
Import split_genki.
Variable decimal : N → option N.
Variable limit : nat.

Local Instance lesson_file_name_inj : Inj (=) (=) lesson_file_name.
Proof.
  intros k1 k2 Heq. unfold lesson_file_name in Heq.
  apply app_inv_head in Heq. by apply app_inv_tail in Heq.
Qed.

Lemma extract_key_head (lesson_field k : list N) (w : option (list N)) :
  extract_first_lesson decimal limit lesson_field = Returns (Some k, w) →
  ∃ k', k = 76%N :: k'.
Proof.
  unfold extract_first_lesson. destruct (_ || _); [done|]. cbv zeta.
  destruct (search_L_digits _ _) as [ds|].
  - destruct (int_digits _ _ _); [|done]. intros [= <- _]. by eexists.
  - case_bool_decide; [|done]. intros [= <- _]. by eexists.
Qed.

Lemma destination_key_head (row : list (list N)) (k : list N) :
  destination_key decimal limit row = Some k → ∃ k', k = 76%N :: k'.
Proof.
  unfold destination_key, row_destination. case_decide; [done|].
  destruct (extract_first_lesson _ _ _) as [[k0 w]|e] eqn:He; [|done].
  simpl. intros ->. by eapply extract_key_head.
Qed.

Lemma lesson_file_name_not_unsorted (k' : list N) :
  lesson_file_name (76%N :: k') ≠ lit "genki_vocab_unsorted.csv".
Proof. unfold lesson_file_name. by intros [=]. Qed.

Lemma rows_of_key_snoc (k : list N) (rows : list (list (list N)))
    (row : list (list N)) :
  rows_of_key decimal limit k (rows ++ [row])
  = rows_of_key decimal limit k rows
    ++ (if decide (destination_key decimal limit row = Some k)
        then [row] else []).
Proof. unfold rows_of_key. rewrite filter_app. f_equal. Qed.

Lemma sort_row_destination (st : sorted) (row : list (list N)) :
  sort_row decimal limit st row
  = match row_destination decimal limit row with
    | Raises e => Raises e
    | Returns (None, warning) =>
        Returns {| lessons := lessons st;
                   unsorted := unsorted st ++ [(row, warning)] |}
    | Returns (Some lesson_key, _) =>
        Returns
          {| lessons := <[lesson_key :=
                            default [] (lessons st !! lesson_key) ++ [row]]>
                          (lessons st);
             unsorted := unsorted st |}
    end.
Proof. unfold sort_row, row_destination. by case_decide. Qed.

Lemma sort_rows_snoc (st : sorted) (rows : list (list (list N)))
    (row : list (list N)) :
  sort_rows decimal limit st (rows ++ [row])
  = match sort_rows decimal limit st rows with
    | Returns st' => sort_row decimal limit st' row
    | Raises e => Raises e
    end.
Proof.
  revert st. induction rows as [|r rows IH]; intros st; simpl.
  - by destruct (sort_row _ _ _ _).
  - destruct (sort_row _ _ st r); [apply IH|done].
Qed.

(** The two collections after the loop over the rows. *)
Lemma sort_rows_spec (rows : list (list (list N))) (st : sorted) :
  sort_rows decimal limit {| lessons := ∅; unsorted := [] |} rows
  = Returns st →
  (∀ k, lessons st !! k
        = if decide (rows_of_key decimal limit k rows = []) then None
          else Some (rows_of_key decimal limit k rows))
  ∧ unsorted st = unsorted_items decimal limit rows.
Proof.
  revert st. induction rows as [|row rows IH] using rev_ind; intros st.
  { by intros [= <-]. }
  rewrite sort_rows_snoc.
  destruct (sort_rows _ _ _ rows) as [st'|e]; [|done].
  destruct (IH st' eq_refl) as [IHl IHu]. clear IH.
  rewrite sort_row_destination. unfold unsorted_items.
  rewrite omap_app. fold (unsorted_items decimal limit rows).
  cbn [omap list_omap].
  pose proof (eq_refl : destination_key decimal limit row
                        = match row_destination decimal limit row with
                          | Returns r => r.1
                          | Raises _ => None
                          end) as Hkey.
  destruct (row_destination decimal limit row) as [[[key|] w]|e] eqn:Hd;
    [| |done]; intros [= <-]; cbn [lessons unsorted fst] in *.
  - split; [|by rewrite app_nil_r].
    intros k. rewrite rows_of_key_snoc, Hkey.
    destruct (decide (key = k)) as [->|Hk].
    + rewrite lookup_insert_eq, IHl.
      rewrite (decide_True (P := Some k = Some k)) by done.
      destruct (rows_of_key decimal limit k rows); by repeat case_decide.
    + rewrite lookup_insert_ne, IHl by done.
      rewrite (decide_False (P := Some key = Some k)) by congruence.
      by rewrite app_nil_r.
  - split; [|by rewrite IHu].
    intros k. rewrite rows_of_key_snoc, Hkey.
    rewrite (decide_False (P := None = Some k)) by done.
    by rewrite app_nil_r.
Qed.

Lemma main_returns (header : list (list N)) (rows : list (list (list N)))
    (files : gmap (list N) (list (list (list N)))) :
  main decimal limit (header :: rows) = Returns files →
  ∃ st,
    sort_rows decimal limit {| lessons := ∅; unsorted := [] |} rows
    = Returns st
    ∧ files
      = match unsorted st with
        | [] => kmap lesson_file_name
                  ((λ rows, header :: rows) <$> lessons st)
        | _ => <[lit "genki_vocab_unsorted.csv" :=
                   (header ++ [lit "_sort_error"])
                   :: (unsorted_record <$> unsorted st)]>
                 (kmap lesson_file_name
                    ((λ rows, header :: rows) <$> lessons st))
        end.
Proof.
  unfold main. destruct (sort_rows _ _ _ rows) as [st|e]; [|done].
  intros [= <-]. exists st. split; [done|]. by destruct (unsorted st).
Qed.

Lemma lesson_files_lookup (header : list (list N))
    (rows : list (list (list N))) (st : sorted) (name : list N)
    (content : list (list (list N))) :
  sort_rows decimal limit {| lessons := ∅; unsorted := [] |} rows
  = Returns st →
  kmap (M2 := gmap (list N)) lesson_file_name
    ((λ rows, header :: rows) <$> lessons st) !! name = Some content →
  ∃ row k k', row ∈ rows ∧ destination_key decimal limit row = Some k
              ∧ k = 76%N :: k' ∧ name = lesson_file_name k.
Proof.
  intros [Hl _]%sort_rows_spec Hc.
  apply lookup_kmap_Some in Hc as (k & -> & Hk); [|apply _].
  rewrite lookup_fmap, Hl in Hk. case_decide as Hr; [done|].
  destruct (rows_of_key decimal limit k rows) as [|r rs] eqn:Hrows; [done|].
  assert (r ∈ rows_of_key decimal limit k rows) as Hin
    by (rewrite Hrows; by left).
  apply list_elem_of_filter in Hin as [Hd Hin].
  destruct (destination_key_head _ _ Hd) as [k' ->].
  by exists r, (76%N :: k'), k'.
Qed.

Lemma sort_rows_raises (rows : list (list (list N))) (st : sorted) :
  (∃ st', sort_rows decimal limit st rows = Returns st')
  ↔ ∀ row, row ∈ rows → ∃ r, row_destination decimal limit row = Returns r.
Proof.
  revert st. induction rows as [|row rows IH]; intros st; simpl.
  { split; [by intros _ row ?%not_elem_of_nil|by eexists]. }
  rewrite sort_row_destination. split.
  - intros [st' Hst'] r Hr.
    destruct (row_destination decimal limit row) as [[[key|] w]|e] eqn:Hd;
      [| |done].
    all: apply elem_of_cons in Hr as [->|Hr]; [by eexists|].
    all: eapply IH; [by eexists|done].
  - intros Hall. destruct (Hall row) as [[[key|] w] ->]; [by left|..].
    all: apply IH; intros r Hr; apply Hall; by right.
Qed.

(** X19. The file of a lesson.  When the run ends without exception, for a
    row whose sixth cell gives a key it has written the file named after
    that key; the file holds the header and then exactly the rows of that
    key, in the order of the input. *)
Theorem lesson_file_rows (header row : list (list N))
    (rows : list (list (list N))) (k : list N)
    (files : gmap (list N) (list (list (list N)))) :
  main decimal limit (header :: rows) = Returns files →
  row ∈ rows → destination_key decimal limit row = Some k →
  files !! lesson_file_name k
  = Some (header :: rows_of_key decimal limit k rows).
Proof.
  intros (st & Hst & ->)%main_returns Hin Hk.
  destruct (sort_rows_spec _ _ Hst) as [Hl _].
  assert (Hrows : rows_of_key decimal limit k rows ≠ []).
  { intros He. assert (row ∈ rows_of_key decimal limit k rows) as Hr
      by by apply list_elem_of_filter.
    rewrite He in Hr. by apply not_elem_of_nil in Hr. }
  assert (Hfile : kmap (M2 := gmap (list N)) lesson_file_name
                    ((λ rows, header :: rows) <$> lessons st)
                  !! lesson_file_name k
                  = Some (header :: rows_of_key decimal limit k rows)).
  { rewrite lookup_kmap by apply _. rewrite lookup_fmap, Hl.
    by rewrite decide_False. }
  destruct (unsorted st); [done|].
  destruct (destination_key_head _ _ Hk) as [k' ->].
  rewrite lookup_insert_ne; [done|].
  intros He. by eapply lesson_file_name_not_unsorted.
Qed.

(** X20. The file of the unsorted rows.  When the run ends without
    exception, it has written genki_vocab_unsorted.csv exactly when some
    row has fewer than six cells or a sixth cell without a key; the file
    holds the header with one more column, then those rows in the order of
    the input, each filled with empty cells up to six and followed by its
    reason. *)
Theorem unsorted_file_rows (header : list (list N))
    (rows : list (list (list N)))
    (files : gmap (list N) (list (list (list N)))) :
  main decimal limit (header :: rows) = Returns files →
  files !! lit "genki_vocab_unsorted.csv"
  = if decide (unsorted_items decimal limit rows = []) then None
    else Some ((header ++ [lit "_sort_error"])
               :: (unsorted_record <$> unsorted_items decimal limit rows)).
Proof.
  intros (st & Hst & ->)%main_returns.
  destruct (sort_rows_spec _ _ Hst) as [_ Hu]. rewrite <- Hu.
  destruct (unsorted st) as [|item items].
  - rewrite decide_True by done.
    destruct (kmap _ _ !! _) as [content|] eqn:Hc; [|done].
    destruct (lesson_files_lookup _ _ _ _ _ Hst Hc)
      as (r & k & k' & _ & _ & -> & Hname).
    symmetry in Hname. by apply lesson_file_name_not_unsorted in Hname.
  - rewrite decide_False by done. by rewrite lookup_insert_eq.
Qed.

(** X21. No other file.  Every file the run writes is the file of the
    unsorted rows, or the file of a key that some row of the input gives. *)
Theorem only_lesson_and_unsorted_files (header : list (list N))
    (rows : list (list (list N)))
    (files : gmap (list N) (list (list (list N))))
    (name : list N) (content : list (list (list N))) :
  main decimal limit (header :: rows) = Returns files →
  files !! name = Some content →
  name = lit "genki_vocab_unsorted.csv"
  ∨ ∃ row k, row ∈ rows ∧ destination_key decimal limit row = Some k
             ∧ name = lesson_file_name k.
Proof.
  intros (st & Hst & ->)%main_returns Hname.
  assert (Hfiles : ∀ c,
    kmap (M2 := gmap (list N)) lesson_file_name
      ((λ rows, header :: rows) <$> lessons st) !! name = Some c →
    ∃ row k, row ∈ rows ∧ destination_key decimal limit row = Some k
             ∧ name = lesson_file_name k).
  { intros c Hc.
    destruct (lesson_files_lookup _ _ _ _ _ Hst Hc)
      as (r & k & k' & Hin & Hd & _ & ->). by exists r, k. }
  destruct (unsorted st).
  - right. by eapply Hfiles.
  - destruct (decide (name = lit "genki_vocab_unsorted.csv")) as [|Hne];
      [by left|right].
    rewrite lookup_insert_ne in Hname by done. by eapply Hfiles.
Qed.

(** X22. All the files or none.  The files are written after the loop over
    the rows: the run writes its files exactly when the input has a header
    and no row makes [int] raise; one such row and no file is written. *)
Theorem files_written_iff_no_row_raises (input : list (list (list N))) :
  (∃ files, main decimal limit input = Returns files)
  ↔ input ≠ []
    ∧ ∀ row, row ∈ tail input →
        ∃ r, row_destination decimal limit row = Returns r.
Proof.
  destruct input as [|header rows]; simpl.
  { split; [by intros [? ?]|by intros [? _]]. }
  rewrite <- (sort_rows_raises rows {| lessons := ∅; unsorted := [] |}).
  split.
  - intros [files Hf]. split; [done|].
    destruct (sort_rows _ _ _ rows); [by eexists|done].
  - intros [_ [st ->]]. by eexists.
Qed.

End split_genki_files.

Section split_genki_witnesses.
Import split_genki.

Lemma ascii_decimal_spec (c : N) :
  (48 ≤ c ≤ 57)%N → ascii_decimal c = Some (c - 48)%N.
Proof.
  intros [H1 H2]. unfold ascii_decimal.
  apply N.leb_le in H1, H2. by rewrite H1, H2.
Qed.

Lemma key_from_first_lesson_only_witness :
  (44%N ∉ [20250; 76; 57]%N)
  ∧ match extract_first_lesson ascii_decimal 4300
            ([20250; 76; 57]%N ++ 44%N :: [32; 20250; 76; 49; 48]%N),
          extract_first_lesson ascii_decimal 4300 [20250; 76; 57]%N with
    | Returns r, Returns r' => r.1 = r'.1
    | Raises e, Raises e' => e = e'
    | _, _ => False
    end.
Proof.
  assert (H : 44%N ∉ [20250; 76; 57]%N).
  { rewrite !not_elem_of_cons. repeat split; try done.
    apply not_elem_of_nil. }
  split; [exact H|].
  exact (key_from_first_lesson_only ascii_decimal 4300
           [20250; 76; 57]%N [32; 20250; 76; 49; 48]%N H).
Defined.

Lemma numbered_lesson_field_witness :
  extract_first_lesson ascii_decimal 4300
    ([20250%N] ++ lit "L" ++ lit (py.str (Z.of_N 3)) ++ [40; 101; 41]%N)
  = Returns (Some (lit "L" ++ format_02d 3), None)
  ∧ lesson_file_name (lit "L" ++ format_02d 3)
    = lit (lesson_file (py.zfill 2 (py.str (Z.of_N 3)))).
Proof.
  apply (numbered_lesson_field ascii_decimal 4300
           [20250%N] [40; 101; 41]%N 3%N).
  - exact ascii_decimal_spec.
  - rewrite not_elem_of_cons. split; [done|apply not_elem_of_nil].
  - rewrite not_elem_of_cons. split; [done|apply not_elem_of_nil].
  - reflexivity.
  - simpl. lia.
Defined.

Lemma lesson_file_rows_witness :
  main ascii_decimal 4300 (split_header :: split_rows)
  = Returns (sample_split_files)
  ∧ split_row_L3_bis ∈ split_rows
  ∧ destination_key ascii_decimal 4300 split_row_L3_bis = Some (lit "L03")
  ∧ sample_split_files !! lesson_file_name (lit "L03")
    = Some (split_header
            :: rows_of_key ascii_decimal 4300 (lit "L03") split_rows).
Proof.
  assert (H0 : main ascii_decimal 4300 (split_header :: split_rows)
               = Returns sample_split_files) by (vm_compute; reflexivity).
  assert (H1 : split_row_L3_bis ∈ split_rows).
  { unfold split_rows. do 3 right. left. }
  assert (H2 : destination_key ascii_decimal 4300 split_row_L3_bis
               = Some (lit "L03")) by (vm_compute; reflexivity).
  exact (conj H0 (conj H1 (conj H2
    (lesson_file_rows ascii_decimal 4300 split_header _ _ _ _ H0 H1 H2)))).
Defined.

Lemma unsorted_file_rows_witness :
  main ascii_decimal 4300 (split_header :: split_rows)
  = Returns sample_split_files
  ∧ sample_split_files !! lit "genki_vocab_unsorted.csv"
    = if decide (unsorted_items ascii_decimal 4300 split_rows = []) then None
      else Some ((split_header ++ [lit "_sort_error"])
                 :: (unsorted_record
                     <$> unsorted_items ascii_decimal 4300 split_rows)).
Proof.
  assert (H0 : main ascii_decimal 4300 (split_header :: split_rows)
               = Returns sample_split_files) by (vm_compute; reflexivity).
  exact (conj H0 (unsorted_file_rows ascii_decimal 4300 _ _ _ H0)).
Defined.

Lemma only_lesson_and_unsorted_files_witness :
  main ascii_decimal 4300 (split_header :: split_rows)
  = Returns sample_split_files
  ∧ sample_split_files !! lit "genki_vocab_L00.csv"
    = Some [split_header; split_row_G]
  ∧ (lit "genki_vocab_L00.csv" = lit "genki_vocab_unsorted.csv"
     ∨ ∃ row k, row ∈ split_rows
         ∧ destination_key ascii_decimal 4300 row = Some k
         ∧ lit "genki_vocab_L00.csv" = lesson_file_name k).
Proof.
  assert (H1 : main ascii_decimal 4300 (split_header :: split_rows)
               = Returns sample_split_files) by (vm_compute; reflexivity).
  assert (H2 : sample_split_files !! lit "genki_vocab_L00.csv"
               = Some [split_header; split_row_G])
    by (vm_compute; reflexivity).
  exact (conj H1 (conj H2
    (only_lesson_and_unsorted_files ascii_decimal 4300 _ _ _ _ _ H1 H2))).
Defined.

End split_genki_witnesses.
